(** * OpenCal month grid: a shallow embedding of the calendar widget scripts

    The scripts build a month grid out of the host's [Date] object.  The
    development has three layers:

    - [JsNum]: the JavaScript numbers that occur in the scripts (integers and
      [NaN]), with the comparisons and arithmetic the loops use;
    - [JsDate]: the ECMAScript day arithmetic behind [new Date(y, m, d)],
      [getDay], [getDate], [getMonth] and [getFullYear];
    - [Widget]: the functions of the scripts ([calendar], the icon click
      handler, [showCalendar]) over an explicit page state.

    Integers are modelled exactly by [Z]; a [Date] is modelled by the number of
    the local day it falls on (days since 1970-01-01), the time of day and the
    offset of the time zone playing no role in the getters that the scripts
    call. *)

From Stdlib Require Import ZArith List String Bool Lia DecimalString.
Import ListNotations.
Local Open Scope Z_scope.

(** ** Numbers *)

Module JsNum.

(** A number of the scripts: an integer or [NaN]. *)
Inductive num : Type :=
| NaN
| Int (z : Z).

Definition add (a b : num) : num :=
  match a, b with
  | Int x, Int y => Int (x + y)
  | _, _ => NaN
  end.

Definition sub (a b : num) : num :=
  match a, b with
  | Int x, Int y => Int (x - y)
  | _, _ => NaN
  end.

(** [a < b], [a <= b], [a > b]: false as soon as one side is [NaN]. *)
Definition lt (a b : num) : bool :=
  match a, b with
  | Int x, Int y => x <? y
  | _, _ => false
  end.

Definition le (a b : num) : bool :=
  match a, b with
  | Int x, Int y => x <=? y
  | _, _ => false
  end.

Definition gt (a b : num) : bool := lt b a.

(** [a === b] on numbers: [NaN] equals nothing. *)
Definition strict_eq (a b : num) : bool :=
  match a, b with
  | Int x, Int y => x =? y
  | _, _ => false
  end.

(** The text of a number inside a template literal. *)
Definition to_string (a : num) : string :=
  match a with
  | NaN => "NaN"
  | Int z => NilZero.string_of_int (Z.to_int z)
  end.

End JsNum.
Import JsNum.

(** ** Dates *)

Module JsDate.

(** Day number of the first day of year [y] (ECMAScript [DayFromYear]). *)
Definition DayFromYear (y : Z) : Z :=
  365 * (y - 1970) + (y - 1969) / 4 - (y - 1901) / 100 + (y - 1601) / 400.

(** Whether year [y] has 366 days (ECMAScript [DaysInYear]). *)
Definition InLeapYear (y : Z) : bool :=
  (y mod 4 =? 0) && (negb (y mod 100 =? 0) || (y mod 400 =? 0)).

Definition leapDay (y : Z) : Z := if InLeapYear y then 1 else 0.

(** Number, within its year, of the first day of month [m] (0-based); the
    thresholds of ECMAScript's [MonthFromTime]. *)
Definition monthStart (leap m : Z) : Z :=
  if m <=? 0 then 0
  else if m =? 1 then 31
  else if m =? 2 then 59 + leap
  else if m =? 3 then 90 + leap
  else if m =? 4 then 120 + leap
  else if m =? 5 then 151 + leap
  else if m =? 6 then 181 + leap
  else if m =? 7 then 212 + leap
  else if m =? 8 then 243 + leap
  else if m =? 9 then 273 + leap
  else if m =? 10 then 304 + leap
  else if m =? 11 then 334 + leap
  else 365 + leap.

(** The year a day falls in (ECMAScript [YearFromTime]: the largest [y] with
    [DayFromYear y <= d]), computed over the 400-year cycle that starts on
    1601-01-01, which is day -134774. *)
Definition YearFromDay (d : Z) : Z :=
  let n := d + 134774 in
  let q400 := n / 146097 in
  let r400 := n mod 146097 in
  let c := Z.min (r400 / 36524) 3 in
  let r100 := r400 - c * 36524 in
  let q4 := r100 / 1461 in
  let r4 := r100 mod 1461 in
  let a := Z.min (r4 / 365) 3 in
  1601 + 400 * q400 + 100 * c + 4 * q4 + a.

Definition DayWithinYear (d : Z) : Z := d - DayFromYear (YearFromDay d).

(** ECMAScript [MonthFromTime]. *)
Definition MonthFromDay (d : Z) : Z :=
  let w := DayWithinYear d in
  let l := leapDay (YearFromDay d) in
  if w <? 31 then 0
  else if w <? 59 + l then 1
  else if w <? 90 + l then 2
  else if w <? 120 + l then 3
  else if w <? 151 + l then 4
  else if w <? 181 + l then 5
  else if w <? 212 + l then 6
  else if w <? 243 + l then 7
  else if w <? 273 + l then 8
  else if w <? 304 + l then 9
  else if w <? 334 + l then 10
  else 11.

(** ECMAScript [DateFromTime]. *)
Definition DateFromDay (d : Z) : Z :=
  DayWithinYear d - monthStart (leapDay (YearFromDay d)) (MonthFromDay d) + 1.

(** ECMAScript [WeekDay]: 1970-01-01 was a Thursday. *)
Definition WeekDay (d : Z) : Z := (d + 4) mod 7.

(** ECMAScript [MakeDay]: months carry into the year, the day of the month is
    an offset from the first of the month. *)
Definition MakeDay (year month date : Z) : Z :=
  let ym := year + month / 12 in
  let mn := month mod 12 in
  DayFromYear ym + monthStart (leapDay ym) mn + date - 1.

(** A [Date] object: [Invalid Date], or the day it falls on. *)
Definition t : Type := option Z.

(** ECMAScript [TimeClip], on days: a time value is at most 8.64e15 ms, that
    is 100,000,000 days, away from the epoch (taken at offset zero; a time
    zone moves this bound by less than a day). *)
Definition TimeClip (day : Z) : t :=
  if Z.abs day >? 100000000 then None else Some day.

(** [new Date(year, month, date)]: a [NaN] argument gives [Invalid Date]; a
    year from 0 to 99 stands for 1900 + year. *)
Definition mk (year month date : num) : t :=
  match year, month, date with
  | Int y, Int m, Int dt =>
      let yr := if (0 <=? y) && (y <=? 99) then 1900 + y else y in
      TimeClip (MakeDay yr m dt)
  | _, _, _ => None
  end.

(** [new Date(year, month)]. *)
Definition mk2 (year month : num) : t := mk year month (Int 1).

Definition getter (f : Z -> Z) (d : t) : num :=
  match d with
  | Some day => Int (f day)
  | None => NaN
  end.

Definition getDay : t -> num := getter WeekDay.
Definition getDate : t -> num := getter DateFromDay.
Definition getMonth : t -> num := getter MonthFromDay.
Definition getFullYear : t -> num := getter YearFromDay.

End JsDate.

(** ** The widget scripts *)

Module Widget.
Import JsDate.

(** One [<li class="...">n</li>] of the days list. *)
Record li : Type := mk_li { className : string; text : num }.

(** The page as the icon-driven script sees it: its three globals, and the two
    elements it writes, [.current-date] and [.days] (the latter as the list of
    [<li>] its [innerHTML] denotes). *)
Record page : Type := mk_page {
  date : JsDate.t;
  currYear : num;
  currMonth : num;
  currentDate_innerText : string;
  daysTag_innerHTML : list li
}.

Definition months : list string :=
  ["January"; "February"; "March"; "April"; "May"; "June"; "July";
   "August"; "September"; "October"; "November"; "December"]%string.

(** [months[m]] inside a template literal: a missing entry reads [undefined]. *)
Definition months_at (m : num) : string :=
  match m with
  | Int z =>
      if z <? 0 then "undefined"%string
      else nth (Z.to_nat z) months "undefined"%string
  | NaN => "undefined"%string
  end.

(** [for (let i = i0; cond(i); i = step(i)) body(i)], run for at most [fuel]
    rounds over the loop state [s]. *)
Fixpoint for_loop {S : Type} (fuel : nat) (cond : num -> bool)
    (step : num -> num) (body : num -> S -> S) (i : num) (s : S) : S :=
  match fuel with
  | O => s
  | Datatypes.S fuel' =>
      if cond i then for_loop fuel' cond step body (step i) (body i s) else s
  end.

(** Rounds a counting loop over [n] values can take. *)
Definition trips (n : num) : nat :=
  match n with
  | Int z => Z.to_nat z
  | NaN => O
  end.

(** Body of the first loop of [calendar]: a day of the previous month. *)
Definition leading_li (lastDateofLastMonth i : num) (liTag : list li) : list li :=
  liTag ++ [mk_li "inactive" (add (sub lastDateofLastMonth i) (Int 1))].

(** Body of the second loop: a day of the month, marked when it is today. *)
Definition month_li (now : Z) (p : page) (i : num) (liTag : list li) : list li :=
  let isToday :=
    if strict_eq i (getDate (date p))
       && strict_eq (currMonth p) (getMonth (Some now))
       && strict_eq (currYear p) (getFullYear (Some now))
    then "active"%string else ""%string in
  liTag ++ [mk_li isToday i].

(** Body of the third loop: a day of the next month. *)
Definition trailing_li (lastDayofMonth i : num) (liTag : list li) : list li :=
  liTag ++ [mk_li "inactive" (add (sub i lastDayofMonth) (Int 1))].

(** [calendar()], with [now] the day the clock shows, which is what
    [new Date()] reads.  Each loop is given the rounds its bounds allow, plus
    [extra]; the loops stop on their own condition, so [extra] changes
    nothing (see [calendar_fuel_irrelevant]). *)
Definition calendar_fuel (extra : nat) (now : Z) (p : page) : page :=
  let firstDayofMonth := getDay (mk (currYear p) (currMonth p) (Int 1)) in
  let lastDateofMonth :=
    getDate (mk (currYear p) (add (currMonth p) (Int 1)) (Int 0)) in
  let lastDayofMonth :=
    getDay (mk (currYear p) (currMonth p) lastDateofMonth) in
  let lastDateofLastMonth := getDate (mk (currYear p) (currMonth p) (Int 0)) in
  let liTag := [] in
  let liTag :=
    for_loop (trips firstDayofMonth + extra) (fun i => gt i (Int 0))
      (fun i => sub i (Int 1)) (leading_li lastDateofLastMonth)
      firstDayofMonth liTag in
  let liTag :=
    for_loop (trips lastDateofMonth + extra) (fun i => le i lastDateofMonth)
      (fun i => add i (Int 1)) (month_li now p) (Int 1) liTag in
  let liTag :=
    for_loop (trips (sub (Int 6) lastDayofMonth) + extra)
      (fun i => lt i (Int 6))
      (fun i => add i (Int 1)) (trailing_li lastDayofMonth)
      lastDayofMonth liTag in
  mk_page (date p) (currYear p) (currMonth p)
    (months_at (currMonth p) ++ " " ++ to_string (currYear p))%string
    liTag.

Definition calendar : Z -> page -> page := calendar_fuel 0.

(** The [if]/[else] of the icon click handler, after the month was stepped. *)
Definition settle (now : Z) (p : page) : page :=
  if lt (currMonth p) (Int 0) || gt (currMonth p) (Int 11) then
    let date := mk (currYear p) (currMonth p) (getDate (Some now)) in
    mk_page date (getFullYear date) (getMonth date)
      (currentDate_innerText p) (daysTag_innerHTML p)
  else
    mk_page (Some now) (currYear p) (currMonth p)
      (currentDate_innerText p) (daysTag_innerHTML p).

(** The click handler of the icon whose [id] is [icon_id]. *)
Definition icon_click (icon_id : string) (now : Z) (p : page) : page :=
  let currMonth' :=
    if String.eqb icon_id "prev" then sub (currMonth p) (Int 1)
    else add (currMonth p) (Int 1) in
  let p := mk_page (date p) (currYear p) currMonth'
             (currentDate_innerText p) (daysTag_innerHTML p) in
  calendar now (settle now p).

(** *** The grid a page shows *)

Record MonthGrid : Type := mk_grid {
  year : num;
  month : num;
  cells : list li;
  label : string
}.

Definition grid_of (p : page) : MonthGrid :=
  mk_grid (currYear p) (currMonth p) (daysTag_innerHTML p)
    (currentDate_innerText p).

(** A cell of the previous or next month carries the class [inactive]; the
    cell of today carries the class [active]. *)
Definition dayNumber (c : li) : num := text c.
Definition isCurrentMonth (c : li) : bool := negb (String.eqb (className c) "inactive").
Definition isToday (c : li) : bool := String.eqb (className c) "active".

(** The grid shown for month [month] of [year] on the day [today], on a page
    [p]: the path of the click handler from the stepped month to the rendered
    list, that is [settle] and then [calendar]. *)
Definition computeGrid_on (p : page) (year month : Z) (today : Z) : MonthGrid :=
  grid_of
    (calendar today
       (settle today
          (mk_page (date p) (Int year) (Int month)
             (currentDate_innerText p) (daysTag_innerHTML p)))).

(** The same from a page that shows nothing yet. *)
Definition blank : page := mk_page None NaN NaN "" [].

Definition computeGrid : Z -> Z -> Z -> MonthGrid := computeGrid_on blank.

(** The page on 27 February 2024 (day 19780), before anything is rendered. *)
Definition february_2024 : page := mk_page (Some 19780) (Int 2024) (Int 1) "" [].

(** How a run of the script ends: normally with a value, or by throwing. *)
Inductive completion (A : Type) : Type :=
| Normal (a : A)
| Throw (error_name : string).
Arguments Normal {A} a.
Arguments Throw {A} error_name.

(** Neither [calendar] nor the handler has a [throw], and none of their
    operations (arithmetic, comparison, [Date] getters, template literals,
    reading [months]) throws on a number: every run completes normally. *)
Definition computeGrid_run (year month today : Z) : completion MonthGrid :=
  Normal (computeGrid year month today).

(** *** The table-driven script *)

(** A [<td>] of the month table: its class, and its [data-date] attribute
    (absent on the empty cells before the first of the month). *)
Record td : Type := mk_td { td_className : string; data_date : option num }.

Section TableDriven.

(** [daysInMonth(month, year)] is called by [showCalendar] and defined in none
    of the scripts; likewise the global [today]. *)
Variable daysInMonth : num -> num -> num.
Variable today : JsDate.t.

(** The inner loop of [showCalendar], over [j], for row [i]; it returns the
    value of [date] and the row, and stops early at the [break]. *)
Fixpoint row_loop (fuel : nat) (firstDay month year : num) (i j : Z)
    (date : Z) (row : list td) : Z * list td :=
  match fuel with
  | O => (date, row)
  | S fuel' =>
      if j <? 7 then
        if (i =? 0) && lt (Int j) firstDay then
          row_loop fuel' firstDay month year i (j + 1) date
            (row ++ [mk_td "" None])
        else if gt (Int date) (daysInMonth month year) then
          (date, row)
        else
          let selected :=
            strict_eq (Int date) (getDate today)
            && strict_eq year (getFullYear today)
            && strict_eq month (getMonth today) in
          row_loop fuel' firstDay month year i (j + 1) (date + 1)
            (row ++ [mk_td (if selected then "date-picker selected"
                            else "date-picker")%string
                       (Some (Int date))])
      else (date, row)
  end.

(** The outer loop, over [i]: six rows appended to the table body. *)
Fixpoint rows_loop (fuel : nat) (firstDay month year : num) (i : Z)
    (date : Z) (tbl : list (list td)) : list (list td) :=
  match fuel with
  | O => tbl
  | S fuel' =>
      if i <? 6 then
        let '(date', row) := row_loop 7 firstDay month year i 0 date [] in
        rows_loop fuel' firstDay month year (i + 1) date' (tbl ++ [row])
      else tbl
  end.

(** [showCalendar(month, year)]: the heading it writes and the rows of
    [#calendar-body]. *)
Definition showCalendar (month year : num) : string * list (list td) :=
  let firstDay := getDay (mk2 year month) in
  ((months_at month ++ " " ++ to_string year)%string,
   rows_loop 6 firstDay month year 0 1 []).

End TableDriven.

(** *** Day cells, the common reading of both scripts' output *)

Record DayCell : Type := mk_cell {
  cell_number : option num;
  cell_isCurrentMonth : bool;
  cell_isToday : bool
}.

Definition cell_of_li (c : li) : DayCell :=
  mk_cell (Some (dayNumber c)) (isCurrentMonth c) (isToday c).

Definition cell_of_td (c : td) : DayCell :=
  mk_cell (data_date c)
    (match data_date c with Some _ => true | None => false end)
    (String.eqb (td_className c) "date-picker selected").

(** The day cells of the icon-driven script, for a month read off [p]. *)
Definition calendar_cells (now : Z) (p : page) : list DayCell :=
  List.map cell_of_li (daysTag_innerHTML (calendar now p)).

(** The day cells of the table-driven script, row after row. *)
Definition showCalendar_cells (daysInMonth : num -> num -> num)
    (today : JsDate.t) (month year : num) : list DayCell :=
  List.map cell_of_td (List.concat (snd (showCalendar daysInMonth today month year))).

(** *** Reference notions the properties are stated with *)

(** The locals of [calendar], as functions of the page. *)
Definition firstWeekday (p : page) : num :=
  getDay (mk (currYear p) (currMonth p) (Int 1)).

Definition lastDateOfMonth (p : page) : num :=
  getDate (mk (currYear p) (add (currMonth p) (Int 1)) (Int 0)).

Definition lastWeekday (p : page) : num :=
  getDay (mk (currYear p) (currMonth p) (lastDateOfMonth p)).

Definition lastDateOfPrevMonth (p : page) : num :=
  getDate (mk (currYear p) (currMonth p) (Int 0)).

Fixpoint take_while {A : Type} (f : A -> bool) (l : list A) : list A :=
  match l with
  | [] => []
  | a :: l' => if f a then a :: take_while f l' else []
  end.

Fixpoint drop_while {A : Type} (f : A -> bool) (l : list A) : list A :=
  match l with
  | [] => []
  | a :: l' => if f a then drop_while f l' else l
  end.

(** The three runs of a grid: the inactive cells it starts with, the cells of
    the month that follow, and what comes after them. *)
Definition isInactive (c : li) : bool := negb (isCurrentMonth c).

Definition leading_cells (cs : list li) : list li := take_while isInactive cs.

Definition active_cells (cs : list li) : list li :=
  take_while isCurrentMonth (drop_while isInactive cs).

Definition trailing_cells (cs : list li) : list li :=
  drop_while isCurrentMonth (drop_while isInactive cs).

(** The cells [calendar] emits, one by one. *)
Definition inactive_li (n : num) : li := mk_li "inactive" n.

Definition today_class (now : Z) (p : page) (i : num) : string :=
  if strict_eq i (getDate (date p))
     && strict_eq (currMonth p) (getMonth (Some now))
     && strict_eq (currYear p) (getFullYear (Some now))
  then "active"%string else ""%string.

Definition month_cell (now : Z) (p : page) (i : Z) : li :=
  mk_li (today_class now p (Int i)) (Int i).

(** [a; a+1; ...] ([n] values) and [a; a-1; ...] ([n] values). *)
Fixpoint Zup (a : Z) (n : nat) : list Z :=
  match n with
  | O => []
  | S n' => a :: Zup (a + 1) n'
  end.

Fixpoint Zdown (a : Z) (n : nat) : list Z :=
  match n with
  | O => []
  | S n' => a :: Zdown (a - 1) n'
  end.

(** The three runs of cells [calendar] emits, for any globals and clock. *)
Definition leading_run (p : page) : list li :=
  match firstWeekday p with
  | Int f =>
      map (fun j => inactive_li (add (sub (lastDateOfPrevMonth p) (Int j)) (Int 1)))
        (Zdown f (Z.to_nat f))
  | NaN => []
  end.

Definition month_run (now : Z) (p : page) : list li :=
  match lastDateOfMonth p with
  | Int L => map (month_cell now p) (Zup 1 (Z.to_nat L))
  | NaN => []
  end.

Definition trailing_run (p : page) : list li :=
  match lastWeekday p with
  | Int ld =>
      map (fun j => inactive_li (Int (j - ld + 1))) (Zup ld (Z.to_nat (6 - ld)))
  | NaN => []
  end.

(** Days of a month by the usual rule: thirty days have September, April,
    June and November; February has 29 in a leap year, 28 otherwise; a year is
    leap when divisible by 4, except the centuries not divisible by 400. *)
Definition leap_year (y : Z) : bool :=
  ((y mod 4 =? 0) && negb (y mod 100 =? 0)) || (y mod 400 =? 0).

Definition standard_month_days (y m : Z) : Z :=
  if m =? 1 then (if leap_year y then 29 else 28)
  else if (m =? 3) || (m =? 5) || (m =? 8) || (m =? 10) then 30
  else 31.

(** Days of the month before month [m] of year [y]. *)
Definition previous_month_days (y m : Z) : Z :=
  if m =? 0 then standard_month_days (y - 1) 11
  else standard_month_days y (m - 1).

(** The year [new Date(year, ...)] takes [year] to mean. *)
Definition full_year (y : Z) : Z :=
  if (0 <=? y) && (y <=? 99) then 1900 + y else y.

(** The years all of whose days a [Date] can hold. *)
Definition representable_year (y : Z) : Prop := -271820 <= y <= 275759.


End Widget.

Import Widget.

(** ** The month a click asks for *)

(** [icon.id === "prev" ? currMonth - 1 : currMonth + 1], on an integer
    month. *)
Definition stepped (icon_id : string) (m : Z) : Z :=
  if String.eqb icon_id "prev" then m - 1 else m + 1.

(** ** The navigation of the table-driven script *)

Module TableNav.

(** [a % b] on numbers: the remainder has the sign of [a]; [NaN] when [b] is
    zero. *)
Definition rem (a b : num) : num :=
  match a, b with
  | Int x, Int y => if y =? 0 then NaN else Int (Z.rem x y)
  | _, _ => NaN
  end.

(** The two globals [next], [previous] and [jump] keep. *)
Record view : Type := mk_view { currentMonth : num; currentYear : num }.

(** The assignments of [next()]: the year first, from the month as it was. *)
Definition next_view (v : view) : view :=
  let currentYear' :=
    if strict_eq (currentMonth v) (Int 11) then add (currentYear v) (Int 1)
    else currentYear v in
  let currentMonth' := rem (add (currentMonth v) (Int 1)) (Int 12) in
  mk_view currentMonth' currentYear'.

(** The assignments of [previous()]. *)
Definition previous_view (v : view) : view :=
  let currentYear' :=
    if strict_eq (currentMonth v) (Int 0) then sub (currentYear v) (Int 1)
    else currentYear v in
  let currentMonth' :=
    if strict_eq (currentMonth v) (Int 0) then Int 11
    else sub (currentMonth v) (Int 1) in
  mk_view currentMonth' currentYear'.

Section Shown.

Variable daysInMonth : num -> num -> num.
Variable today : JsDate.t.

(** [next()] and [previous()]: the new globals, and what [showCalendar]
    writes for them. *)
Definition next (v : view) : view * (string * list (list td)) :=
  let v' := next_view v in
  (v', showCalendar daysInMonth today (currentMonth v') (currentYear v')).

Definition previous (v : view) : view * (string * list (list td)) :=
  let v' := previous_view v in
  (v', showCalendar daysInMonth today (currentMonth v') (currentYear v')).

End Shown.

(** The cells [showCalendar] appends: the empty one, and the one of a date. *)
Definition blank_td : td := mk_td "" None.

Definition date_td (today : JsDate.t) (month year : num) (date : Z) : td :=
  mk_td (if strict_eq (Int date) (JsDate.getDate today)
            && strict_eq year (JsDate.getFullYear today)
            && strict_eq month (JsDate.getMonth today)
         then "date-picker selected" else "date-picker")%string
    (Some (Int date)).

(** A cell of the table marked as today. *)
Definition selected (c : td) : bool :=
  String.eqb (td_className c) "date-picker selected".

(** Months counted from year 0: the position of a view on the line of
    months. *)
Definition month_index (y m : Z) : Z := 12 * y + m.

End TableNav.

(** ** The collapsible sections *)

Module Collapsible.

(** A button of class [collapsible] with the element after it: whether the
    button carries the class [active], the [style.maxHeight] of the element
    (empty when unset) and its [scrollHeight]. *)
Record section : Type := mk_section {
  active : bool;
  maxHeight : string;
  scrollHeight : Z
}.

(** A string in a condition: true unless empty. *)
Definition truthy (s : string) : bool := negb (String.eqb s "").

(** The click listener: toggle the class, then unset [maxHeight] when it is
    set and set it to the [scrollHeight] in pixels when it is not. *)
Definition click (b : section) : section :=
  mk_section (negb (active b))
    (if truthy (maxHeight b) then ""%string
     else (to_string (Int (scrollHeight b)) ++ "px")%string)
    (scrollHeight b).

(** [window.onload] of the page script: every button gets the listener and is
    clicked once. *)
Definition onload (buttons : list section) : list section :=
  List.map click buttons.

Definition expanded (b : section) : bool := truthy (maxHeight b).

End Collapsible.

(** ** The week table *)

From Stdlib Require Import Ascii.

Module WeekTable.

(** A [<td id="...">text</td>] and a [<tr id="...">] with its cells: what the
    string [output] denotes. *)
Record cell : Type := mk_cell { cell_id : string; cell_text : string }.
Record row : Type := mk_row { row_id : string; row_cells : list cell }.

Definition days : list string :=
  ["sun"; "mon"; "tue"; "wed"; "thu"; "fri"; "sat"]%string.

Definition hours : list string :=
  ["12am"; "1am"; "2am"; "3am"; "4am"; "5am"; "6am"; "7am"; "8am"; "9am";
   "10am"; "11am"; "12pm"; "1pm"; "2pm"; "3pm"; "4pm"; "5pm"; "6pm"; "7pm";
   "8pm"; "9pm"; "10pm"; "11pm"]%string.

(** The body of [hours.forEach]: the row of one hour, over the days [ds]. *)
Definition hour_row (ds : list string) (hour : string) : row :=
  mk_row (hour ++ "-row")%string
    (mk_cell hour hour
     :: List.map (fun day => mk_cell (hour ++ "-" ++ day)%string ""%string) ds).

(** The rows built over the hours [hs] and the days [ds]. *)
Definition rows_over (hs ds : list string) : list row :=
  List.map (hour_row ds) hs.

(** The rows the page script inserts after the table body. *)
Definition output : list row := rows_over hours days.

(** Every [id] of a list of rows, in document order. *)
Definition ids (rs : list row) : list string :=
  List.flat_map (fun r => row_id r :: List.map cell_id (row_cells r)) rs.

(** The ids of the row of one hour. *)
Definition ids_of_hour (ds : list string) (hour : string) : list string :=
  (hour ++ "-row")%string
  :: hour :: List.map (fun day => (hour ++ "-" ++ day)%string) ds.

(** Whether a string holds a dash, and the part of it before the first one. *)
Fixpoint has_dash (s : string) : bool :=
  match s with
  | EmptyString => false
  | String c s' => Ascii.eqb c "-"%char || has_dash s'
  end.

Fixpoint before_dash (s : string) : string :=
  match s with
  | EmptyString => EmptyString
  | String c s' =>
      if Ascii.eqb c "-"%char then EmptyString else String c (before_dash s')
  end.

End WeekTable.

(** * The model at work *)

Example epoch_is_1970 :
  JsDate.YearFromDay 0 = 1970 /\ JsDate.MonthFromDay 0 = 0 /\
  JsDate.DateFromDay 0 = 1 /\ JsDate.WeekDay 0 = 4.
Proof. repeat split. Qed.

Example day_19780_is_27_february_2024 :
  JsDate.YearFromDay 19780 = 2024 /\ JsDate.MonthFromDay 19780 = 1 /\
  JsDate.DateFromDay 19780 = 27.
Proof. repeat split. Qed.

Example dates_of_february_2024 :
  JsDate.getDay (JsDate.mk (Int 2024) (Int 1) (Int 1)) = Int 4 /\
  JsDate.getDate (JsDate.mk (Int 2024) (Int 2) (Int 0)) = Int 29 /\
  JsDate.getDate (JsDate.mk (Int 2024) (Int 1) (Int 0)) = Int 31.
Proof. repeat split. Qed.

(** The last day a [Date] can hold is 13 September 275760: the grid of that
    month has its leading cell and nothing else. *)
Example september_275760 :
  JsDate.mk (Int 275760) (Int 8) (Int 13) = Some 100000000 /\
  JsDate.mk (Int 275760) (Int 8) (Int 14) = None /\
  cells (computeGrid 275760 8 19780) = [inactive_li (Int 31)].
Proof. repeat split. Qed.

(** [new Date(0, 1, 1)] is 1 February 1900: the grid labelled "February 0"
    has the 28 days of February 1900. *)
Example february_0 :
  label (computeGrid 0 1 19780) = "February 0"%string /\
  List.length (active_cells (cells (computeGrid 0 1 19780))) = 28%nat /\
  standard_month_days 0 1 = 29.
Proof. repeat split. Qed.

(** [calendar] itself does not carry the month into the year: called with
    month 12 it emits the days of January but looks up [months[12]]. *)
Example calendar_month_12 :
  label (grid_of (calendar 19780 (mk_page (Some 19780) (Int 2024) (Int 12) "" [])))
  = "undefined 2024"%string /\
  label (computeGrid 2024 12 19780) = "January 2025"%string.
Proof. repeat split. Qed.

Example click_next_in_december :
  grid_of (icon_click "next" 19780 (mk_page None (Int 2024) (Int 11) "" []))
  = computeGrid 2025 0 19780.
Proof. reflexivity. Qed.

(** * Facts about the day arithmetic *)

Module DateFacts.
Import JsDate.

Ltac zdiv := Z.to_euclidean_division_equations; lia.

Ltac eval_monthStart :=
  repeat match goal with
         | |- context [monthStart ?l ?k] =>
             let v := eval vm_compute in (monthStart l k) in
             change (monthStart l k) with v
         end.

Lemma leapDay_cases y : leapDay y = 0 \/ leapDay y = 1.
Proof. unfold leapDay. destruct (InLeapYear y); auto. Qed.

Lemma InLeapYear_leap_year y : InLeapYear y = leap_year y.
Proof.
  unfold InLeapYear, leap_year.
  destruct (y mod 4 =? 0) eqn:E4; destruct (y mod 100 =? 0) eqn:E100;
    destruct (y mod 400 =? 0) eqn:E400; try reflexivity;
    rewrite ?Z.eqb_eq, ?Z.eqb_neq in *; exfalso; zdiv.
Qed.

Lemma DayFromYear_succ y : DayFromYear (y + 1) = DayFromYear y + 365 + leapDay y.
Proof.
  unfold DayFromYear, leapDay, InLeapYear.
  destruct (y mod 4 =? 0) eqn:E4; destruct (y mod 100 =? 0) eqn:E100;
  destruct (y mod 400 =? 0) eqn:E400; cbn [andb orb negb];
  rewrite ?Z.eqb_eq, ?Z.eqb_neq in *; zdiv.
Qed.

Lemma DayFromYear_lt y y' : y < y' -> DayFromYear y < DayFromYear y'.
Proof. unfold DayFromYear. intros. zdiv. Qed.

Lemma YearFromDay_spec d :
  DayFromYear (YearFromDay d) <= d < DayFromYear (YearFromDay d + 1).
Proof. unfold YearFromDay, DayFromYear. cbv zeta. zdiv. Qed.

Lemma YearFromDay_unique d y :
  DayFromYear y <= d < DayFromYear (y + 1) -> YearFromDay d = y.
Proof.
  intros H. pose proof (YearFromDay_spec d) as S.
  destruct (Z.lt_trichotomy (YearFromDay d) y) as [L | [E | G]]; [| exact E |].
  - assert (DayFromYear (YearFromDay d + 1) <= DayFromYear y).
    { destruct (Z.eq_dec (YearFromDay d + 1) y) as [->|]; [lia|].
      apply Z.lt_le_incl, DayFromYear_lt. lia. }
    lia.
  - assert (DayFromYear (y + 1) <= DayFromYear (YearFromDay d)).
    { destruct (Z.eq_dec (y + 1) (YearFromDay d)) as [->|]; [lia|].
      apply Z.lt_le_incl, DayFromYear_lt. lia. }
    lia.
Qed.

Lemma standard_month_days_bounds y m : 28 <= standard_month_days y m <= 31.
Proof.
  unfold standard_month_days.
  repeat match goal with |- context [if ?b then _ else _] => destruct b end; lia.
Qed.

(** Months laid end to end: the next month starts where this one ends. *)
Lemma monthStart_succ y m :
  0 <= m <= 11 ->
  monthStart (leapDay y) (m + 1) =
  monthStart (leapDay y) m + standard_month_days y m.
Proof.
  intros Hm. unfold standard_month_days, leapDay.
  rewrite <- InLeapYear_leap_year.
  assert (m = 0 \/ m = 1 \/ m = 2 \/ m = 3 \/ m = 4 \/ m = 5 \/ m = 6 \/
          m = 7 \/ m = 8 \/ m = 9 \/ m = 10 \/ m = 11) as C by lia.
  repeat destruct C as [-> | C]; try subst m;
    destruct (InLeapYear y); reflexivity.
Qed.

Lemma monthStart_12 y : monthStart (leapDay y) 12 = 365 + leapDay y.
Proof. reflexivity. Qed.

(** [MakeDay] on a month of the year proper. *)
Lemma MakeDay_in_year y m dt :
  0 <= m <= 11 ->
  MakeDay y m dt = DayFromYear y + monthStart (leapDay y) m + dt - 1.
Proof.
  intros Hm. unfold MakeDay. cbv zeta.
  rewrite (Z.div_small m 12), (Z.mod_small m 12) by lia.
  now rewrite Z.add_0_r.
Qed.

Lemma MakeDay_shift y m dt k : MakeDay y m (dt + k) = MakeDay y m dt + k.
Proof. unfold MakeDay. cbv zeta. lia. Qed.

(** Day 0 of the following month is the last day of this one. *)
Lemma MakeDay_next_0 y m :
  0 <= m <= 11 ->
  MakeDay y (m + 1) 0 = MakeDay y m (standard_month_days y m).
Proof.
  intros Hm. rewrite (MakeDay_in_year y m) by lia.
  destruct (Z.eq_dec m 11) as [-> | Hne].
  - unfold MakeDay. cbv zeta. change (11 + 1) with 12.
    change (12 / 12) with 1. change (12 mod 12) with 0.
    rewrite DayFromYear_succ.
    pose proof (monthStart_succ y 11 ltac:(lia)) as E.
    change (11 + 1) with 12 in E. rewrite monthStart_12 in E.
    change (monthStart (leapDay (y + 1)) 0) with 0. lia.
  - rewrite MakeDay_in_year by lia. rewrite monthStart_succ by lia. lia.
Qed.

Lemma monthStart_range y m :
  0 <= m <= 11 -> 0 <= monthStart (leapDay y) m <= 335.
Proof.
  intros Hm.
  assert (m = 0 \/ m = 1 \/ m = 2 \/ m = 3 \/ m = 4 \/ m = 5 \/ m = 6 \/
          m = 7 \/ m = 8 \/ m = 9 \/ m = 10 \/ m = 11) as C by lia.
  destruct (leapDay_cases y) as [-> | ->];
    repeat destruct C as [-> | C]; try subst m; cbn; lia.
Qed.

(** Reading back a day made from a date of the calendar. *)
Lemma decode_MakeDay y m dt :
  0 <= m <= 11 -> 1 <= dt <= standard_month_days y m ->
  YearFromDay (MakeDay y m dt) = y /\
  MonthFromDay (MakeDay y m dt) = m /\
  DateFromDay (MakeDay y m dt) = dt.
Proof.
  intros Hm Hd.
  assert (HY : YearFromDay (MakeDay y m dt) = y).
  { apply YearFromDay_unique. rewrite MakeDay_in_year, DayFromYear_succ by lia.
    pose proof (monthStart_succ y m Hm) as E.
    pose proof (monthStart_range y m Hm).
    destruct (Z.eq_dec m 11) as [-> | Hne].
    - change (11 + 1) with 12 in E. rewrite monthStart_12 in E. lia.
    - pose proof (monthStart_range y (m + 1) ltac:(lia)).
      pose proof (leapDay_cases y).
      assert (monthStart (leapDay y) (m + 1) <= 334 + leapDay y).
      { assert (m = 0 \/ m = 1 \/ m = 2 \/ m = 3 \/ m = 4 \/ m = 5 \/ m = 6 \/
          m = 7 \/ m = 8 \/ m = 9 \/ m = 10) as C by lia.
        destruct (leapDay_cases y) as [-> | ->];
          repeat destruct C as [-> | C]; try subst m; eval_monthStart; lia. }
      lia. }
  assert (HM : MonthFromDay (MakeDay y m dt) = m).
  { unfold MonthFromDay, DayWithinYear. cbv zeta. rewrite HY.
    rewrite MakeDay_in_year by lia.
    replace (DayFromYear y + monthStart (leapDay y) m + dt - 1 - DayFromYear y)
      with (monthStart (leapDay y) m + dt - 1) by lia.
    pose proof (monthStart_succ y m Hm) as E.
    revert Hd E. unfold standard_month_days, leapDay.
    rewrite <- InLeapYear_leap_year.
    assert (m = 0 \/ m = 1 \/ m = 2 \/ m = 3 \/ m = 4 \/ m = 5 \/ m = 6 \/
          m = 7 \/ m = 8 \/ m = 9 \/ m = 10 \/ m = 11) as C by lia.
    repeat destruct C as [-> | C]; try subst m;
      destruct (InLeapYear y); cbn [Z.eqb Pos.eqb orb]; cbv beta iota;
      eval_monthStart; intros Hd _;
      repeat match goal with
             | |- context [?a <? ?b] => destruct (Z.ltb_spec a b); try lia
             end; reflexivity. }
  repeat split; trivial.
  unfold DateFromDay, DayWithinYear. rewrite HM, HY.
  rewrite MakeDay_in_year by lia. lia.
Qed.

End DateFacts.

(** * Facts about the loops of [calendar] *)

Module LoopFacts.

Lemma Zup_length a n : List.length (Zup a n) = n.
Proof. revert a. induction n; intros; simpl; auto. Qed.

Lemma Zdown_length a n : List.length (Zdown a n) = n.
Proof. revert a. induction n; intros; simpl; auto. Qed.



Lemma Zup_snoc a n : Zup a (S n) = Zup a n ++ [a + Z.of_nat n].
Proof.
  revert a. induction n as [| n IH]; intros a.
  - simpl. now rewrite Z.add_0_r.
  - change (Zup a (S (S n))) with (a :: Zup (a + 1) (S n)).
    rewrite IH. change (Zup a (S n)) with (a :: Zup (a + 1) n).
    cbn [app]. rewrite Nat2Z.inj_succ. do 3 f_equal. lia.
Qed.

(** Counting down from [a] is counting up to [a], reversed. *)
Lemma Zdown_rev a n : Zdown a n = rev (Zup (a - Z.of_nat n + 1) n).
Proof.
  revert a. induction n as [| n IH]; intros a; [reflexivity |].
  rewrite Zup_snoc, rev_app_distr. cbn [rev app Zdown].
  rewrite Nat2Z.inj_succ. f_equal; [lia |].
  rewrite IH. do 2 f_equal. lia.
Qed.

(** The first loop: [i] runs down from the first weekday to 1. *)
Lemma leading_loop P : forall n fuel i acc,
  n = Z.to_nat i -> (n <= fuel)%nat ->
  for_loop fuel (fun i => gt i (Int 0)) (fun i => sub i (Int 1))
    (leading_li P) (Int i) acc =
  acc ++ map (fun j => inactive_li (add (sub P (Int j)) (Int 1))) (Zdown i n).
Proof.
  induction n as [| n IH]; intros fuel i acc Hn Hf.
  - simpl. rewrite app_nil_r. destruct fuel; [reflexivity |].
    cbn [for_loop gt lt]. destruct (Z.ltb_spec 0 i); [lia | reflexivity].
  - destruct fuel as [| fuel]; [lia |]. cbn [for_loop gt lt sub Zdown map].
    destruct (Z.ltb_spec 0 i); [| lia].
    rewrite IH by lia. unfold leading_li. now rewrite <- app_assoc.
Qed.

(** The second loop: [i] runs up from 1 to the last date of the month. *)
Lemma month_loop now p L : forall n fuel i acc,
  n = Z.to_nat (L - i + 1) -> (n <= fuel)%nat ->
  for_loop fuel (fun i => le i (Int L)) (fun i => add i (Int 1))
    (month_li now p) (Int i) acc =
  acc ++ map (month_cell now p) (Zup i n).
Proof.
  induction n as [| n IH]; intros fuel i acc Hn Hf.
  - simpl. rewrite app_nil_r. destruct fuel; [reflexivity |].
    cbn [for_loop le]. destruct (Z.leb_spec i L); [lia | reflexivity].
  - destruct fuel as [| fuel]; [lia |]. cbn [for_loop le add Zup map].
    destruct (Z.leb_spec i L); [| lia].
    rewrite IH by lia. unfold month_li. now rewrite <- app_assoc.
Qed.

(** The third loop: [i] runs up from the last weekday to 5. *)
Lemma trailing_loop ld : forall n fuel i acc,
  n = Z.to_nat (6 - i) -> (n <= fuel)%nat ->
  for_loop fuel (fun i => lt i (Int 6)) (fun i => add i (Int 1))
    (trailing_li (Int ld)) (Int i) acc =
  acc ++ map (fun j => inactive_li (Int (j - ld + 1))) (Zup i n).
Proof.
  induction n as [| n IH]; intros fuel i acc Hn Hf.
  - simpl. rewrite app_nil_r. destruct fuel; [reflexivity |].
    cbn [for_loop lt]. destruct (Z.ltb_spec i 6); [lia | reflexivity].
  - destruct fuel as [| fuel]; [lia |]. cbn [for_loop lt add Zup map].
    destruct (Z.ltb_spec i 6); [| lia].
    rewrite IH by lia. unfold trailing_li. now rewrite <- app_assoc.
Qed.

(** A loop whose condition fails at once leaves its state as it is. *)
Lemma for_loop_exit {S} fuel (cond : num -> bool) step (body : num -> S -> S) i s :
  cond i = false -> for_loop fuel cond step body i s = s.
Proof. intros H. destruct fuel; [reflexivity |]. cbn [for_loop]. now rewrite H. Qed.

Lemma calendar_fuel_runs extra now p :
  daysTag_innerHTML (calendar_fuel extra now p) =
  leading_run p ++ month_run now p ++ trailing_run p.
Proof.
  unfold calendar_fuel, leading_run, month_run, trailing_run.
  cbv zeta. cbn [daysTag_innerHTML].
  fold (firstWeekday p) (lastDateOfMonth p) (lastDateOfPrevMonth p).
  fold (lastWeekday p).
  assert (E3 : forall acc,
    for_loop (trips (sub (Int 6) (lastWeekday p)) + extra) (fun i => lt i (Int 6))
      (fun i => add i (Int 1)) (trailing_li (lastWeekday p)) (lastWeekday p) acc =
    acc ++ match lastWeekday p with
           | Int ld => map (fun j => inactive_li (Int (j - ld + 1)))
                         (Zup ld (Z.to_nat (6 - ld)))
           | NaN => []
           end).
  { intros acc. destruct (lastWeekday p) as [| ld].
    - rewrite for_loop_exit by reflexivity. now rewrite app_nil_r.
    - apply trailing_loop; [reflexivity | cbn [trips sub]; lia]. }
  rewrite E3.
  assert (E2 : forall acc,
    for_loop (trips (lastDateOfMonth p) + extra) (fun i => le i (lastDateOfMonth p))
      (fun i => add i (Int 1)) (month_li now p) (Int 1) acc =
    acc ++ match lastDateOfMonth p with
           | Int L => map (month_cell now p) (Zup 1 (Z.to_nat L))
           | NaN => []
           end).
  { intros acc. destruct (lastDateOfMonth p) as [| L].
    - rewrite for_loop_exit by reflexivity. now rewrite app_nil_r.
    - apply month_loop; [f_equal; lia | cbn [trips]; lia]. }
  rewrite E2, <- app_assoc. f_equal.
  destruct (firstWeekday p) as [| f].
  - now rewrite for_loop_exit by reflexivity.
  - now rewrite (leading_loop _ (Z.to_nat f)) by (cbn [trips]; lia).
Qed.

Lemma calendar_runs now p :
  daysTag_innerHTML (calendar now p) =
  leading_run p ++ month_run now p ++ trailing_run p.
Proof. apply calendar_fuel_runs. Qed.

(** More rounds than the bounds allow change nothing: every loop of
    [calendar] ends because its condition fails. *)
Lemma calendar_fuel_irrelevant extra now p :
  calendar_fuel extra now p = calendar now p.
Proof.
  pose proof (calendar_fuel_runs extra now p) as E.
  pose proof (calendar_runs now p) as E0. rewrite <- E in E0.
  unfold calendar in *. unfold calendar_fuel in *. cbv zeta in *.
  cbn [daysTag_innerHTML] in E0. now rewrite E0.
Qed.

End LoopFacts.

(** * The locals of [calendar] on a month of a representable year *)

Module MonthFacts.
Import JsDate DateFacts.

Lemma DayFromYear_le y y' : y <= y' -> DayFromYear y <= DayFromYear y'.
Proof.
  intros H. destruct (Z.eq_dec y y') as [-> |]; [lia |].
  apply Z.lt_le_incl, DayFromYear_lt. lia.
Qed.

Lemma full_year_representable y :
  representable_year y -> representable_year (full_year y).
Proof.
  unfold representable_year, full_year. intros H.
  destruct ((0 <=? y) && (y <=? 99)) eqn:E; [| exact H].
  apply andb_prop in E as [E1 E2]. apply Z.leb_le in E1, E2. lia.
Qed.

Lemma DayFromYear_representable y :
  representable_year y ->
  -99999744 <= DayFromYear y /\ DayFromYear (y + 1) <= 99999744.
Proof.
  unfold representable_year. intros [H1 H2].
  pose proof (DayFromYear_le _ _ H1) as L1.
  pose proof (DayFromYear_le (y + 1) 275760 ltac:(lia)) as L2.
  change (DayFromYear (-271820)) with (-99999744) in L1.
  change (DayFromYear 275760) with 99999744 in L2.
  split; assumption.
Qed.

Lemma TimeClip_in_range d : -100000000 <= d <= 100000000 -> TimeClip d = Some d.
Proof.
  intros H. unfold TimeClip.
  destruct (Z.gtb_spec (Z.abs d) 100000000); [lia | reflexivity].
Qed.

(** Every date from day 0 to day 31 of a month of a representable year is a
    valid [Date]. *)
Lemma mk_valid y m dt :
  representable_year y -> 0 <= m <= 11 -> 0 <= dt <= 31 ->
  mk (Int y) (Int m) (Int dt) = Some (MakeDay (full_year y) m dt).
Proof.
  intros Hy Hm Hd. unfold mk. fold (full_year y). cbv zeta.
  apply TimeClip_in_range.
  pose proof (DayFromYear_representable _ (full_year_representable _ Hy)) as B.
  rewrite DayFromYear_succ in B.
  rewrite MakeDay_in_year by lia.
  pose proof (monthStart_range (full_year y) m Hm).
  pose proof (leapDay_cases (full_year y)). lia.
Qed.

Lemma mk_valid_next_0 y m :
  representable_year y -> 0 <= m <= 11 ->
  mk (Int y) (Int (m + 1)) (Int 0) =
  Some (MakeDay (full_year y) m (standard_month_days (full_year y) m)).
Proof.
  intros Hy Hm. unfold mk. fold (full_year y). cbv zeta.
  rewrite MakeDay_next_0 by lia.
  pose proof (standard_month_days_bounds (full_year y) m).
  rewrite <- (mk_valid y m) by (try assumption; lia).
  unfold mk. fold (full_year y). reflexivity.
Qed.

(** Day 0 of a month is the last day of the month before. *)
Lemma MakeDay_0 y m :
  0 <= m <= 11 ->
  MakeDay y m 0 =
  MakeDay (if m =? 0 then y - 1 else y) (if m =? 0 then 11 else m - 1)
    (previous_month_days y m).
Proof.
  intros Hm. unfold previous_month_days.
  destruct (Z.eqb_spec m 0) as [-> | Hne].
  - rewrite <- MakeDay_next_0 by lia. change (11 + 1) with 12.
    unfold MakeDay. cbv zeta. change (12 / 12) with 1. change (0 / 12) with 0.
    change (12 mod 12) with 0. change (0 mod 12) with 0.
    replace (y - 1 + 1) with y by lia. now rewrite !Z.add_0_r.
  - rewrite <- MakeDay_next_0 by lia. now replace (m - 1 + 1) with m by lia.
Qed.

Lemma previous_month_days_bounds y m : 28 <= previous_month_days y m <= 31.
Proof.
  unfold previous_month_days. destruct (m =? 0); apply standard_month_days_bounds.
Qed.

Section Locals.

Variables (p : page) (y m : Z).
Hypothesis Hy : representable_year y.
Hypothesis Hm : 0 <= m <= 11.
Hypothesis HcurrYear : currYear p = Int y.
Hypothesis HcurrMonth : currMonth p = Int m.

Lemma firstWeekday_valid :
  firstWeekday p = Int (WeekDay (MakeDay (full_year y) m 1)).
Proof.
  unfold firstWeekday. rewrite HcurrYear, HcurrMonth, mk_valid by (trivial; lia).
  reflexivity.
Qed.

Lemma lastDateOfMonth_valid :
  lastDateOfMonth p = Int (standard_month_days (full_year y) m).
Proof.
  unfold lastDateOfMonth. rewrite HcurrYear, HcurrMonth. cbn [add].
  rewrite mk_valid_next_0 by trivial. cbn [getDate getter]. f_equal.
  apply decode_MakeDay; [trivial |].
  pose proof (standard_month_days_bounds (full_year y) m). lia.
Qed.

Lemma lastWeekday_valid :
  lastWeekday p =
  Int ((WeekDay (MakeDay (full_year y) m 1)
        + standard_month_days (full_year y) m - 1) mod 7).
Proof.
  unfold lastWeekday. rewrite lastDateOfMonth_valid, HcurrYear, HcurrMonth.
  pose proof (standard_month_days_bounds (full_year y) m).
  rewrite mk_valid by (trivial; lia). cbn [getDay getter]. f_equal.
  replace (standard_month_days (full_year y) m)
    with (1 + (standard_month_days (full_year y) m - 1)) at 1 by lia.
  rewrite MakeDay_shift. unfold WeekDay.
  generalize (MakeDay (full_year y) m 1), (standard_month_days (full_year y) m).
  intros d l. zdiv.
Qed.

Lemma lastDateOfPrevMonth_valid :
  lastDateOfPrevMonth p = Int (previous_month_days (full_year y) m).
Proof.
  unfold lastDateOfPrevMonth. rewrite HcurrYear, HcurrMonth.
  rewrite mk_valid by (trivial; lia). cbn [getDate getter]. f_equal.
  rewrite MakeDay_0 by trivial.
  apply decode_MakeDay.
  - destruct (m =? 0) eqn:E; [lia |]. apply Z.eqb_neq in E. lia.
  - pose proof (previous_month_days_bounds (full_year y) m) as B.
    split; [lia |]. unfold previous_month_days.
    destruct (m =? 0); lia.
Qed.

Lemma WeekDay_range d : 0 <= WeekDay d <= 6.
Proof. unfold WeekDay. pose proof (Z.mod_pos_bound (d + 4) 7). lia. Qed.

End Locals.

End MonthFacts.

(** * Facts about the grid *)

Module GridFacts.
Import JsDate DateFacts LoopFacts MonthFacts.

(** The day of the month of any day lies between 1 and 31. *)
Lemma DateFromDay_range d : 1 <= DateFromDay d <= 31.
Proof.
  unfold DateFromDay, MonthFromDay, DayWithinYear. cbv zeta.
  pose proof (YearFromDay_spec d) as S. rewrite DayFromYear_succ in S.
  set (w := d - DayFromYear (YearFromDay d)) in *.
  assert (Hw : 0 <= w <= 364 + leapDay (YearFromDay d)) by (unfold w; lia).
  clearbody w. clear S.
  destruct (leapDay_cases (YearFromDay d)) as [E | E]; rewrite E in *;
    repeat match goal with
           | |- context [?a <? ?b] => destruct (Z.ltb_spec a b)
           end; eval_monthStart; lia.
Qed.

Lemma strict_eq_true a b : strict_eq a b = true -> a = b.
Proof.
  destruct a, b; simpl; try discriminate. intros H. apply Z.eqb_eq in H. now subst.
Qed.

Lemma take_while_app {A} (f : A -> bool) l1 l2 :
  Forall (fun a => f a = true) l1 ->
  take_while f (l1 ++ l2) = l1 ++ take_while f l2.
Proof.
  induction 1 as [| a l Ha _ IH]; simpl; [reflexivity |]. now rewrite Ha, IH.
Qed.

Lemma drop_while_app {A} (f : A -> bool) l1 l2 :
  Forall (fun a => f a = true) l1 ->
  drop_while f (l1 ++ l2) = drop_while f l2.
Proof.
  induction 1 as [| a l Ha _ IH]; simpl; [reflexivity |]. now rewrite Ha.
Qed.

Lemma take_while_none {A} (f : A -> bool) l :
  Forall (fun a => f a = false) l -> take_while f l = [].
Proof. destruct 1 as [| a l Ha _]; simpl; [reflexivity |]. now rewrite Ha. Qed.

Lemma drop_while_none {A} (f : A -> bool) l :
  Forall (fun a => f a = false) l -> drop_while f l = l.
Proof. destruct 1 as [| a l Ha _]; simpl; [reflexivity |]. now rewrite Ha. Qed.

Lemma today_class_cases now p i :
  today_class now p i = "active"%string \/ today_class now p i = ""%string.
Proof. unfold today_class. destruct (_ && _); auto. Qed.

Lemma month_cell_current now p i : isCurrentMonth (month_cell now p i) = true.
Proof.
  unfold isCurrentMonth, month_cell. cbn [className].
  destruct (today_class_cases now p (Int i)) as [-> | ->]; reflexivity.
Qed.

Lemma inactive_li_inactive n : isInactive (inactive_li n) = true.
Proof. reflexivity. Qed.

Lemma inactive_li_not_today n : isToday (inactive_li n) = false.
Proof. reflexivity. Qed.

Lemma Forall_map_intro {A B} (P : B -> Prop) (f : A -> B) l :
  (forall a, P (f a)) -> Forall P (map f l).
Proof. intros H. induction l; simpl; constructor; auto. Qed.

(** A grid made of inactive cells, at least one cell of the month, and
    inactive cells again splits back into these three runs. *)
Lemma three_runs now p (A C : list num) (B : list Z) :
  B <> [] ->
  let cs := map inactive_li A ++ map (month_cell now p) B ++ map inactive_li C in
  leading_cells cs = map inactive_li A /\
  active_cells cs = map (month_cell now p) B /\
  trailing_cells cs = map inactive_li C.
Proof.
  intros HB cs.
  assert (HA : Forall (fun a => isInactive a = true) (map inactive_li A))
    by (apply Forall_map_intro; reflexivity).
  assert (HM : Forall (fun a => isCurrentMonth a = true) (map (month_cell now p) B))
    by (apply Forall_map_intro; apply month_cell_current).
  unfold leading_cells, active_cells, trailing_cells, cs.
  rewrite take_while_app, drop_while_app by assumption.
  destruct B as [| b B]; [congruence |].
  assert (Hb : isInactive (month_cell now p b) = false)
    by (unfold isInactive; now rewrite month_cell_current).
  cbn [map app take_while drop_while]. rewrite Hb, app_nil_r.
  change (month_cell now p b :: map (month_cell now p) B ++ map inactive_li C)
    with (map (month_cell now p) (b :: B) ++ map inactive_li C).
  rewrite take_while_app, drop_while_app by assumption.
  assert (HC : Forall (fun a => isCurrentMonth a = false) (map inactive_li C))
    by (apply Forall_map_intro; reflexivity).
  rewrite take_while_none, drop_while_none by assumption.
  now rewrite app_nil_r.
Qed.

Lemma map_Zdown_Zup {B} (g : Z -> B) P : forall n f,
  map (fun j => g (P - j + 1)) (Zdown f n) = map g (Zup (P - f + 1) n).
Proof.
  induction n as [| n IH]; intros f; [reflexivity |].
  cbn [Zdown Zup map]. rewrite IH. do 3 f_equal. lia.
Qed.

Lemma map_Zup_shift {B} (g : Z -> B) k : forall n a,
  map (fun j => g (j - k + 1)) (Zup a n) = map g (Zup (a - k + 1) n).
Proof.
  induction n as [| n IH]; intros a; [reflexivity |].
  cbn [Zup map]. rewrite IH. do 3 f_equal. lia.
Qed.

Section ValidMonth.

Variables (now : Z) (p : page) (y m : Z).
Hypothesis Hy : representable_year y.
Hypothesis Hm : 0 <= m <= 11.
Hypothesis HcurrYear : currYear p = Int y.
Hypothesis HcurrMonth : currMonth p = Int m.

(** The cells of a month of a representable year. *)
Lemma calendar_month fw L P :
  fw = WeekDay (MakeDay (full_year y) m 1) ->
  L = standard_month_days (full_year y) m ->
  P = previous_month_days (full_year y) m ->
  daysTag_innerHTML (calendar now p) =
  map inactive_li (map Int (Zup (P - fw + 1) (Z.to_nat fw)))
  ++ map (month_cell now p) (Zup 1 (Z.to_nat L))
  ++ map inactive_li (map Int (Zup 1 (Z.to_nat (6 - (fw + L - 1) mod 7)))).
Proof.
  intros -> -> ->.
  rewrite calendar_runs. unfold leading_run, month_run, trailing_run.
  rewrite (firstWeekday_valid p y m), (lastDateOfMonth_valid p y m),
    (lastWeekday_valid p y m), (lastDateOfPrevMonth_valid p y m) by assumption.
  cbn [add sub]. rewrite !map_map.
  rewrite (map_Zdown_Zup (fun z => inactive_li (Int z))).
  rewrite (map_Zup_shift (fun z => inactive_li (Int z))).
  do 4 f_equal. lia.
Qed.

End ValidMonth.

End GridFacts.

(** * The properties of the month grid *)

Import JsDate DateFacts LoopFacts MonthFacts GridFacts.

Lemma leap_year_full_year y : y <> 0 -> leap_year (full_year y) = leap_year y.
Proof.
  intros Hy. unfold full_year.
  destruct ((0 <=? y) && (y <=? 99)) eqn:E; [| reflexivity].
  apply andb_prop in E as [E1 E2]. apply Z.leb_le in E1, E2.
  unfold leap_year.
  destruct (y mod 4 =? 0) eqn:A4; destruct (y mod 100 =? 0) eqn:A100;
    destruct (y mod 400 =? 0) eqn:A400;
    destruct ((1900 + y) mod 4 =? 0) eqn:B4;
    destruct ((1900 + y) mod 100 =? 0) eqn:B100;
    destruct ((1900 + y) mod 400 =? 0) eqn:B400; try reflexivity;
    rewrite ?Z.eqb_eq, ?Z.eqb_neq in *; exfalso; zdiv.
Qed.

Lemma standard_month_days_full_year y m :
  y <> 0 -> standard_month_days (full_year y) m = standard_month_days y m.
Proof. intros Hy. unfold standard_month_days. now rewrite leap_year_full_year. Qed.

(** The grid of a month of a representable year, cut into its three runs. *)
Lemma calendar_month_runs now p y m :
  representable_year y -> 0 <= m <= 11 ->
  currYear p = Int y -> currMonth p = Int m ->
  forall fw L P,
  fw = WeekDay (MakeDay (full_year y) m 1) ->
  L = standard_month_days (full_year y) m ->
  P = previous_month_days (full_year y) m ->
  let cs := cells (grid_of (calendar now p)) in
  cs = map inactive_li (map Int (Zup (P - fw + 1) (Z.to_nat fw)))
       ++ map (month_cell now p) (Zup 1 (Z.to_nat L))
       ++ map inactive_li (map Int (Zup 1 (Z.to_nat (6 - (fw + L - 1) mod 7)))) /\
  leading_cells cs = map inactive_li (map Int (Zup (P - fw + 1) (Z.to_nat fw))) /\
  active_cells cs = map (month_cell now p) (Zup 1 (Z.to_nat L)) /\
  trailing_cells cs =
    map inactive_li (map Int (Zup 1 (Z.to_nat (6 - (fw + L - 1) mod 7)))).
Proof.
  intros Hy Hm HY HM fw L P -> -> -> cs.
  assert (E : cs = map inactive_li (map Int (Zup
                (previous_month_days (full_year y) m
                 - WeekDay (MakeDay (full_year y) m 1) + 1)
                (Z.to_nat (WeekDay (MakeDay (full_year y) m 1)))))
       ++ map (month_cell now p)
            (Zup 1 (Z.to_nat (standard_month_days (full_year y) m)))
       ++ map inactive_li (map Int (Zup 1 (Z.to_nat
            (6 - (WeekDay (MakeDay (full_year y) m 1)
                  + standard_month_days (full_year y) m - 1) mod 7)))))
    by exact (calendar_month now p y m Hy Hm HY HM _ _ _ eq_refl eq_refl eq_refl).
  split; [exact E |]. rewrite E. apply three_runs.
  pose proof (standard_month_days_bounds (full_year y) m) as B.
  destruct (Z.to_nat (standard_month_days (full_year y) m)) eqn:N; [lia |].
  discriminate.
Qed.

Lemma map_dayNumber_inactive l : map dayNumber (map inactive_li l) = l.
Proof. rewrite map_map. cbn. apply map_id. Qed.

Lemma map_dayNumber_month now p l : map dayNumber (map (month_cell now p) l) = map Int l.
Proof. rewrite map_map. reflexivity. Qed.


(** C2, as amended.  For February 2024 the grid has exactly 29 active cells
    numbered 1 to 29, the first weekday is Thursday (4), there are exactly 4
    leading inactive cells labelled 28, 29, 30, 31, and 2 trailing cells
    labelled 1, 2 pad the 33 cells to 35. *)
Theorem february_2024_grid (now : Z) (p : page) :
  currYear p = Int 2024 -> currMonth p = Int 1 ->
  let cs := cells (grid_of (calendar now p)) in
  firstWeekday p = Int 4 /\
  map dayNumber (leading_cells cs) = [Int 28; Int 29; Int 30; Int 31] /\
  Forall (fun c => isCurrentMonth c = false) (leading_cells cs) /\
  map dayNumber (active_cells cs) = map Int (Zup 1 29) /\
  List.length (active_cells cs) = 29%nat /\
  Forall (fun c => isCurrentMonth c = true) (active_cells cs) /\
  map dayNumber (trailing_cells cs) = [Int 1; Int 2] /\
  Forall (fun c => isCurrentMonth c = false) (trailing_cells cs) /\
  cs = leading_cells cs ++ active_cells cs ++ trailing_cells cs /\
  List.length cs = 35%nat.
Proof.
  intros HY HM cs.
  assert (Hy : representable_year 2024) by (unfold representable_year; lia).
  destruct (calendar_month_runs now p 2024 1 Hy ltac:(lia) HY HM 4 29 31
              eq_refl eq_refl eq_refl) as (E & E1 & E2 & E3).
  cbv zeta in E, E1, E2, E3. subst cs.
  change (Zup (31 - 4 + 1) (Z.to_nat 4)) with [28; 29; 30; 31] in *.
  change (Zup 1 (Z.to_nat (6 - (4 + 29 - 1) mod 7))) with [1; 2] in *.
  change (Z.to_nat 29) with 29%nat in *.
  rewrite E1, E2, E3.
  split; [exact (firstWeekday_valid p 2024 1 Hy ltac:(lia) HY HM) |].
  rewrite !map_dayNumber_inactive, map_dayNumber_month.
  repeat split; trivial.
  all: match goal with
       | |- Forall _ (map (month_cell _ _) _) =>
           apply Forall_map_intro, month_cell_current
       | |- Forall _ _ => apply Forall_map_intro; reflexivity
       | |- List.length (map _ _) = _ => now rewrite length_map, Zup_length
       | |- List.length _ = _ =>
           rewrite E; now rewrite !length_app, !length_map, Zup_length
       | |- _ = _ => exact E
       end.
Qed.

(** C2, as stated, fails on the total: 33 cells are padded to 35, not to 36. *)
Lemma february_2024_total_is_not_36 :
  let cs := cells (computeGrid 2024 1 19780) in
  (List.length (leading_cells cs) + List.length (active_cells cs) = 33)%nat /\
  List.length cs = 35%nat /\
  List.length cs <> 36%nat.
Proof. vm_compute. repeat split. discriminate. Qed.


Lemma last_map_Zup a n d : last (map Int (Zup a (S n))) d = Int (a + Z.of_nat n).
Proof. rewrite Zup_snoc, map_app. cbn [map]. apply last_last. Qed.

(** The cells of the month run from 1 to the number of days of the month. *)
Lemma active_cells_of_month now p y m :
  representable_year y -> 0 <= m <= 11 ->
  currYear p = Int y -> currMonth p = Int m ->
  let act := active_cells (cells (grid_of (calendar now p))) in
  let L := standard_month_days (full_year y) m in
  map dayNumber act = map Int (Zup 1 (Z.to_nat L)) /\
  hd_error (map dayNumber act) = Some (Int 1) /\
  last (map dayNumber act) NaN = Int L /\
  Z.of_nat (List.length act) = L.
Proof.
  intros Hy Hm HY HM.
  destruct (calendar_month_runs now p y m Hy Hm HY HM _ _ _ eq_refl eq_refl eq_refl)
    as (_ & _ & E & _).
  cbv zeta in *. rewrite E. clear E.
  pose proof (standard_month_days_bounds (full_year y) m) as B.
  rewrite map_dayNumber_month, length_map, Zup_length.
  destruct (Z.to_nat (standard_month_days (full_year y) m)) as [| n] eqn:N; [lia |].
  rewrite last_map_Zup. repeat split.
  - f_equal. lia.
  - lia.
Qed.

(** C4, as stated, fails at year 0: [new Date(0, 2, 0)] is the last day of
    February 1900, so the grid of February 0 has 28 active cells, while year
    0 is a leap year by the usual rule. *)
Lemma february_of_year_0_has_28_cells :
  representable_year 0 /\
  last (map dayNumber
          (active_cells
             (cells (grid_of (calendar 19780
                                (mk_page (Some 19780) (Int 0) (Int 1) "" []))))))
    NaN = Int 28 /\
  List.length
    (active_cells
       (cells (grid_of (calendar 19780
                          (mk_page (Some 19780) (Int 0) (Int 1) "" [])))))
  = 28%nat /\
  leap_year 0 = true /\ standard_month_days 0 1 = 29.
Proof.
  split; [unfold representable_year; lia |]. repeat split.
Qed.

(** C4, as amended.  For every representable year other than 0 and every
    month in 0..11, the first active cell has day number 1 and the last
    active cell has the day count of the month by the usual rules, leap years
    included; for year 0, which [Date] reads as 1900, the active cells are
    those of the same month of 1900; February 2023 has exactly 28 active
    cells and February 2024 exactly 29. *)
Theorem active_cells_first_and_last :
  (forall (now : Z) (p : page) (y m : Z),
      representable_year y -> 0 <= m <= 11 -> y <> 0 ->
      currYear p = Int y -> currMonth p = Int m ->
      let act := active_cells (cells (grid_of (calendar now p))) in
      hd_error (map dayNumber act) = Some (Int 1) /\
      last (map dayNumber act) NaN = Int (standard_month_days y m) /\
      Z.of_nat (List.length act) = standard_month_days y m) /\
  (forall (now : Z) (p : page) (m : Z),
      0 <= m <= 11 -> currYear p = Int 0 -> currMonth p = Int m ->
      let act := active_cells (cells (grid_of (calendar now p))) in
      hd_error (map dayNumber act) = Some (Int 1) /\
      last (map dayNumber act) NaN = Int (standard_month_days 1900 m) /\
      Z.of_nat (List.length act) = standard_month_days 1900 m) /\
  (forall (now : Z) (p : page),
      currYear p = Int 2023 -> currMonth p = Int 1 ->
      List.length (active_cells (cells (grid_of (calendar now p)))) = 28%nat) /\
  (forall (now : Z) (p : page),
      currYear p = Int 2024 -> currMonth p = Int 1 ->
      List.length (active_cells (cells (grid_of (calendar now p)))) = 29%nat).
Proof.
  split; [| split; [| split]].
  - intros now p y m Hy Hm H0 HY HM.
    destruct (active_cells_of_month now p y m Hy Hm HY HM) as (_ & H1 & H2 & H3).
    cbv zeta in *. rewrite (standard_month_days_full_year y m H0) in H2, H3.
    repeat split; assumption.
  - intros now p m Hm HY HM.
    assert (Hy : representable_year 0) by (unfold representable_year; lia).
    destruct (active_cells_of_month now p 0 m Hy Hm HY HM) as (_ & H1 & H2 & H3).
    cbv zeta in *. change (full_year 0) with 1900 in H2, H3.
    repeat split; assumption.
  - intros now p HY HM.
    assert (Hy : representable_year 2023) by (unfold representable_year; lia).
    destruct (active_cells_of_month now p 2023 1 Hy ltac:(lia) HY HM)
      as (_ & _ & _ & H).
    cbv zeta in H. change (standard_month_days (full_year 2023) 1) with 28 in H. lia.
  - intros now p HY HM.
    assert (Hy : representable_year 2024) by (unfold representable_year; lia).
    destruct (active_cells_of_month now p 2024 1 Hy ltac:(lia) HY HM)
      as (_ & _ & _ & H).
    cbv zeta in H. change (standard_month_days (full_year 2024) 1) with 29 in H. lia.
Qed.

(** Among consecutive numbers at most one is today's date. *)
Lemma no_today_after now p d : forall n a,
  getDate (date p) = Int d -> d < a ->
  filter isToday (map (month_cell now p) (Zup a n)) = [].
Proof.
  induction n as [| n IH]; intros a Hd Ha; [reflexivity |].
  cbn [Zup map filter]. rewrite IH by (trivial; lia).
  unfold isToday, month_cell, today_class. cbn [className]. rewrite Hd.
  cbn [strict_eq]. destruct (Z.eqb_spec a d); [lia | reflexivity].
Qed.

Lemma isToday_month_cell now p i :
  isToday (month_cell now p i) = true ->
  getDate (date p) = Int i /\
  currMonth p = getMonth (Some now) /\ currYear p = getFullYear (Some now).
Proof.
  unfold isToday, month_cell, today_class. cbn [className].
  destruct (strict_eq (Int i) (getDate (date p))) eqn:E1;
    destruct (strict_eq (currMonth p) (getMonth (Some now))) eqn:E2;
    destruct (strict_eq (currYear p) (getFullYear (Some now))) eqn:E3;
    cbn; try discriminate.
  intros _. apply strict_eq_true in E1, E2, E3. auto.
Qed.

Lemma at_most_one_today now p : forall n a,
  (List.length (filter isToday (map (month_cell now p) (Zup a n))) <= 1)%nat.
Proof.
  induction n as [| n IH]; intros a; [cbn; lia |].
  cbn [Zup map filter].
  destruct (isToday (month_cell now p a)) eqn:E; [| apply IH].
  apply isToday_month_cell in E as (Hd & _ & _).
  rewrite (no_today_after now p a) by (trivial; lia). cbn. lia.
Qed.

Lemma filter_isToday_inactive (f : Z -> num) l :
  filter isToday (map (fun j => inactive_li (f j)) l) = [].
Proof. induction l; [reflexivity | cbn; assumption]. Qed.

Lemma leading_run_spec p :
  filter isToday (leading_run p) = [] /\
  Forall (fun c => isCurrentMonth c = false) (leading_run p).
Proof.
  unfold leading_run. destruct (firstWeekday p); [split; [reflexivity | constructor] |].
  split; [apply filter_isToday_inactive |].
  apply Forall_map_intro. reflexivity.
Qed.

Lemma trailing_run_spec p :
  filter isToday (trailing_run p) = [] /\
  Forall (fun c => isCurrentMonth c = false) (trailing_run p).
Proof.
  unfold trailing_run. destruct (lastWeekday p); [split; [reflexivity | constructor] |].
  split; [apply (filter_isToday_inactive (fun j => Int (j - z + 1))) |].
  apply Forall_map_intro. reflexivity.
Qed.

(** C5. For every year, month, [date] and clock, at most one cell of the grid
    has [isToday]; such a cell is a cell of the current month; and a cell has
    [isToday] only when the requested year and month are the year and month
    of the clock. *)
Theorem at_most_one_isToday (now : Z) (p : page) :
  let cs := cells (grid_of (calendar now p)) in
  (List.length (filter isToday cs) <= 1)%nat /\
  (forall c, In c cs -> isToday c = true -> isCurrentMonth c = true) /\
  ((exists c, In c cs /\ isToday c = true) ->
   currYear p = getFullYear (Some now) /\ currMonth p = getMonth (Some now)).
Proof.
  cbv zeta. cbn [cells grid_of]. rewrite calendar_runs.
  destruct (leading_run_spec p) as [A1 A2].
  destruct (trailing_run_spec p) as [C1 C2].
  assert (Today : forall c, In c (leading_run p ++ month_run now p ++ trailing_run p) ->
                    isToday c = true -> exists i, c = month_cell now p i).
  { intros c Hin Hc. rewrite !in_app_iff in Hin. destruct Hin as [Hin | [Hin | Hin]].
    - assert (In c (filter isToday (leading_run p))) as F by (apply filter_In; auto).
      rewrite A1 in F. destruct F.
    - unfold month_run in Hin. destruct (lastDateOfMonth p); [destruct Hin |].
      apply in_map_iff in Hin as (i & <- & _). now exists i.
    - assert (In c (filter isToday (trailing_run p))) as F by (apply filter_In; auto).
      rewrite C1 in F. destruct F. }
  split; [| split].
  - rewrite !filter_app, A1, C1, app_nil_r. cbn [app].
    unfold month_run. destruct (lastDateOfMonth p); [cbn; lia |].
    apply at_most_one_today.
  - intros c Hin Hc. destruct (Today c Hin Hc) as [i ->]. apply month_cell_current.
  - intros (c & Hin & Hc). destruct (Today c Hin Hc) as [i ->].
    apply isToday_month_cell in Hc as (_ & H1 & H2). now split.
Qed.

(** The grid depends on the global [date] only through its day of the month. *)
Lemma calendar_depends now p q :
  currYear p = currYear q -> currMonth p = currMonth q ->
  getDate (date p) = getDate (date q) ->
  grid_of (calendar now p) = grid_of (calendar now q).
Proof.
  intros HY HM HD. unfold grid_of.
  rewrite !calendar_runs.
  unfold calendar, calendar_fuel. cbn [currYear currMonth currentDate_innerText].
  unfold leading_run, month_run, trailing_run, lastWeekday, firstWeekday,
    lastDateOfMonth, lastDateOfPrevMonth.
  rewrite HY, HM. f_equal. f_equal. f_equal.
  destruct (getDate (mk (currYear q) (add (currMonth q) (Int 1)) (Int 0)));
    [reflexivity |].
  apply map_ext. intros i. unfold month_cell, today_class.
  now rewrite HY, HM, HD.
Qed.

Lemma MakeDay_carry y m dt :
  MakeDay y m dt = MakeDay (y + m / 12) (m mod 12) dt.
Proof.
  unfold MakeDay. cbv zeta.
  rewrite Z.mod_mod by lia.
  rewrite (Z.div_small (m mod 12) 12) by (apply Z.mod_pos_bound; lia).
  now rewrite Z.add_0_r.
Qed.

Lemma MakeDay_in_range y m dt :
  representable_year y -> 0 <= m <= 11 -> 0 <= dt <= 31 ->
  -100000000 <= MakeDay y m dt <= 100000000.
Proof.
  intros Hy Hm Hd.
  pose proof (DayFromYear_representable _ Hy) as B.
  rewrite DayFromYear_succ in B.
  rewrite MakeDay_in_year by lia.
  pose proof (monthStart_range y m Hm).
  pose proof (leapDay_cases y). lia.
Qed.

(** What [settle] leaves of a month out of 0..11. *)
Lemma settle_out_of_range today d txt lis y m :
  m < 0 \/ 11 < m -> ~ 0 <= y <= 99 ->
  representable_year (y + m / 12) ->
  DateFromDay today <= standard_month_days (y + m / 12) (m mod 12) ->
  settle today (mk_page d (Int y) (Int m) txt lis) =
  mk_page (Some (MakeDay (y + m / 12) (m mod 12) (DateFromDay today)))
    (Int (y + m / 12)) (Int (m mod 12)) txt lis.
Proof.
  intros Hm Hy Hr Hd. unfold settle. cbn [currMonth currYear lt gt
    currentDate_innerText daysTag_innerHTML getDate getter].
  assert (C : (m <? 0) || (11 <? m) = true).
  { apply orb_true_iff. rewrite !Z.ltb_lt. exact Hm. }
  rewrite C. unfold mk.
  assert (F : (0 <=? y) && (y <=? 99) = false).
  { apply andb_false_iff. rewrite !Z.leb_gt. lia. }
  rewrite F. cbv zeta.
  pose proof (DateFromDay_range today) as R.
  pose proof (Z.mod_pos_bound m 12 ltac:(lia)) as Hmod.
  rewrite MakeDay_carry, TimeClip_in_range
    by (apply MakeDay_in_range; trivial; lia).
  cbn [getFullYear getMonth getter].
  destruct (decode_MakeDay (y + m / 12) (m mod 12) (DateFromDay today))
    as (E1 & E2 & _); [lia | lia |].
  now rewrite E1, E2.
Qed.

Lemma settle_in_range today d txt lis y m :
  0 <= m <= 11 ->
  settle today (mk_page d (Int y) (Int m) txt lis) =
  mk_page (Some today) (Int y) (Int m) txt lis.
Proof.
  intros Hm. unfold settle. cbn [currMonth currYear lt gt
    currentDate_innerText daysTag_innerHTML].
  assert (C : (m <? 0) || (11 <? m) = false).
  { apply orb_false_iff. rewrite !Z.ltb_ge. lia. }
  now rewrite C.
Qed.

Lemma carry_into_year p q y m today :
  m < 0 \/ 11 < m -> ~ 0 <= y <= 99 ->
  representable_year (y + m / 12) ->
  DateFromDay today <= standard_month_days (y + m / 12) (m mod 12) ->
  computeGrid_on p y m today =
  computeGrid_on q (y + m / 12) (m mod 12) today.
Proof.
  intros Hm Hy Hr Hd. unfold computeGrid_on.
  pose proof (Z.mod_pos_bound m 12 ltac:(lia)) as Hmod.
  rewrite settle_out_of_range by assumption.
  rewrite settle_in_range by lia.
  apply calendar_depends; try reflexivity.
  cbn [date getDate getter]. f_equal.
  pose proof (DateFromDay_range today).
  apply decode_MakeDay; lia.
Qed.




(** C7, as stated, fails: for a year no [Date] can hold, the run completes
    normally with a grid that has no cell at all. *)
Lemma out_of_range_year_renders_empty_grid :
  mk (Int 300000) (Int 0) (Int 1) = None /\
  computeGrid_run 300000 0 19780 =
    Normal (mk_grid (Int 300000) (Int 0) [] "January 300000") /\
  computeGrid_run 300000 0 19780 <> Throw "InvalidDateInput".
Proof. repeat split. discriminate. Qed.

(** C7, as amended.  The grid computation is total over the integers: for
    every year and month it completes normally with a grid and never fails
    with InvalidDateInput; when the last day of the requested month is a date
    no [Date] can hold, the grid it returns has no cell of the month. *)
Theorem computeGrid_never_fails (year month today : Z) :
  (exists g, computeGrid_run year month today = Normal g) /\
  computeGrid_run year month today <> Throw "InvalidDateInput" /\
  (0 <= month <= 11 ->
   mk (Int year) (Int (month + 1)) (Int 0) = None ->
   Forall (fun c => isCurrentMonth c = false)
     (cells (computeGrid year month today))).
Proof.
  split; [eexists; reflexivity |]. split; [discriminate |].
  intros Hm Hnone. unfold computeGrid, computeGrid_on, blank.
  cbn [date currentDate_innerText daysTag_innerHTML].
  rewrite settle_in_range by assumption.
  cbn [cells grid_of]. rewrite calendar_runs.
  assert (L : lastDateOfMonth (mk_page (Some today) (Int year) (Int month) "" []) = NaN).
  { unfold lastDateOfMonth. cbn [currYear currMonth add]. now rewrite Hnone. }
  unfold month_run, trailing_run, lastWeekday. rewrite L.
  cbn [currYear currMonth mk getDay getter app]. rewrite app_nil_r.
  apply leading_run_spec.
Qed.

(** [calendar] reads the three globals and the clock, and nothing of what the
    page showed before. *)
Lemma calendar_overwrites now d cy cm txt lis txt' lis' :
  calendar now (mk_page d cy cm txt lis) =
  calendar now (mk_page d cy cm txt' lis').
Proof. reflexivity. Qed.

Lemma settle_overwrites now d d' cy cm txt lis :
  date (settle now (mk_page d cy cm txt lis)) =
  date (settle now (mk_page d' cy cm txt lis)) /\
  currYear (settle now (mk_page d cy cm txt lis)) =
  currYear (settle now (mk_page d' cy cm txt lis)) /\
  currMonth (settle now (mk_page d cy cm txt lis)) =
  currMonth (settle now (mk_page d' cy cm txt lis)).
Proof.
  unfold settle. cbn [currMonth currYear].
  destruct (lt cm (Int 0) || gt cm (Int 11)); repeat split.
Qed.

Lemma render_deterministic now d d' cy cm txt lis txt' lis' :
  calendar now (settle now (mk_page d cy cm txt lis)) =
  calendar now (settle now (mk_page d' cy cm txt' lis')).
Proof.
  unfold settle. cbn [currMonth currYear currentDate_innerText daysTag_innerHTML].
  destruct (lt cm (Int 0) || gt cm (Int 11)); apply calendar_overwrites.
Qed.

(** C8, as stated, fails twice: [calendar] alone is no function of the
    year, the month and the clock, for it also reads the global [date] (two
    pages of February 2024 rendered on the same day mark different cells);
    and the path that is such a function, [settle] then [calendar], is not
    free of side effects, for it overwrites the global [date]. *)
Lemma calendar_reads_date_and_the_handler_writes_it :
  grid_of (calendar 19780 (mk_page (Some 19780) (Int 2024) (Int 1) "" [])) <>
  grid_of (calendar 19780 (mk_page (Some 19779) (Int 2024) (Int 1) "" [])) /\
  date (settle 19780 (mk_page (Some 19779) (Int 2024) (Int 1) "" [])) = Some 19780 /\
  date (calendar 19780 (settle 19780 (mk_page (Some 19779) (Int 2024) (Int 1) "" [])))
  <> date (mk_page (Some 19779) (Int 2024) (Int 1) "" []).
Proof.
  split; [| split].
  - intros E. apply (f_equal (fun g => filter isToday (cells g))) in E.
    vm_compute in E. discriminate E.
  - reflexivity.
  - discriminate.
Qed.

(** C8, as amended.  The grid rendered by the handler's path, [settle] then
    [calendar], is a function of the year, the month and the day the clock
    shows: two runs with the same three give the same grid whatever the page
    held before, and a click on pages that agree on the year and the month
    leaves the same page, globals included.  The path has side effects,
    which are these: for a month in 0..11 it sets the global [date] to the
    clock's day, keeps the year and month, and overwrites the heading and the
    list of days with the grid.  [calendar] alone depends, beyond the year,
    the month and the clock, on the day of the month of the global [date],
    and on nothing else. *)
Theorem computeGrid_deterministic :
  (forall p q year month today,
      computeGrid_on p year month today = computeGrid_on q year month today) /\
  (forall icon_id now p q,
      currYear p = currYear q -> currMonth p = currMonth q ->
      icon_click icon_id now p = icon_click icon_id now q) /\
  (forall today d txt lis y m,
      0 <= m <= 11 ->
      calendar today (settle today (mk_page d (Int y) (Int m) txt lis)) =
      mk_page (Some today) (Int y) (Int m)
        (label (computeGrid y m today)) (cells (computeGrid y m today))) /\
  (forall now p q,
      currYear p = currYear q -> currMonth p = currMonth q ->
      getDate (date p) = getDate (date q) ->
      grid_of (calendar now p) = grid_of (calendar now q)).
Proof.
  split; [| split; [| split]].
  - intros p q year month today. unfold computeGrid_on. f_equal.
    apply render_deterministic.
  - intros icon_id now [d cy cm txt lis] [d' cy' cm' txt' lis'].
    cbn [currYear currMonth]. intros <- <-. unfold icon_click.
    cbn [currYear currMonth date currentDate_innerText daysTag_innerHTML].
    apply render_deterministic.
  - intros today d txt lis y m Hm.
    unfold computeGrid, computeGrid_on, blank.
    cbn [date currentDate_innerText daysTag_innerHTML].
    rewrite !settle_in_range by assumption. reflexivity.
  - intros now p q. apply calendar_depends.
Qed.

(** Both loops of [showCalendar] only append. *)
Lemma row_loop_prefix daysInMonth today fd mo ye i : forall fuel j date row,
  exists r, snd (row_loop daysInMonth today fuel fd mo ye i j date row) = row ++ r.
Proof.
  induction fuel as [| fuel IH]; intros j date row.
  - exists []. now rewrite app_nil_r.
  - cbn [row_loop]. destruct (j <? 7); [| exists []; now rewrite app_nil_r].
    destruct ((i =? 0) && lt (Int j) fd).
    + destruct (IH (j + 1) date (row ++ [mk_td "" None])) as [r ->].
      eexists. now rewrite <- app_assoc.
    + destruct (gt (Int date) (daysInMonth mo ye));
        [exists []; now rewrite app_nil_r |].
      match goal with
      | |- context [row_loop _ _ _ _ _ _ _ _ _ (row ++ [?c])] =>
          destruct (IH (j + 1) (date + 1) (row ++ [c])) as [r ->]
      end.
      eexists. now rewrite <- app_assoc.
Qed.

Lemma rows_loop_prefix daysInMonth today fd mo ye : forall fuel i date tbl,
  exists t, rows_loop daysInMonth today fuel fd mo ye i date tbl = tbl ++ t.
Proof.
  induction fuel as [| fuel IH]; intros i date tbl.
  - exists []. now rewrite app_nil_r.
  - cbn [rows_loop]. destruct (i <? 6); [| exists []; now rewrite app_nil_r].
    destruct (row_loop daysInMonth today 7 fd mo ye i 0 date []) as [date' row].
    destruct (IH (i + 1) date' (tbl ++ [row])) as [t ->].
    eexists. now rewrite <- app_assoc.
Qed.

Lemma row_loop_first_blank daysInMonth today fuel k mo ye date row :
  0 < k ->
  row_loop daysInMonth today (S fuel) (Int k) mo ye 0 0 date row =
  row_loop daysInMonth today fuel (Int k) mo ye 0 (0 + 1) date
    (row ++ [mk_td "" None]).
Proof.
  intros Hk. cbn [row_loop lt]. change (0 <? 7) with true.
  change (0 =? 0) with true. cbn [andb].
  destruct (Z.ltb_spec 0 k); [reflexivity | lia].
Qed.

Lemma rows_loop_first daysInMonth today fuel fd mo ye date tbl :
  rows_loop daysInMonth today (S fuel) fd mo ye 0 date tbl =
  rows_loop daysInMonth today fuel fd mo ye (0 + 1)
    (fst (row_loop daysInMonth today 7 fd mo ye 0 0 date []))
    (tbl ++ [snd (row_loop daysInMonth today 7 fd mo ye 0 0 date [])]).
Proof.
  cbn [rows_loop]. change (0 <? 6) with true. cbv iota.
  now destruct (row_loop daysInMonth today 7 fd mo ye 0 0 date []).
Qed.

(** When the month does not start on a Sunday, the table starts with an empty
    cell. *)
Lemma showCalendar_starts_blank daysInMonth today mo ye k :
  getDay (mk2 ye mo) = Int k -> 0 < k ->
  hd_error (showCalendar_cells daysInMonth today mo ye) =
  Some (mk_cell None false false).
Proof.
  intros Hfd Hk. unfold showCalendar_cells, showCalendar. cbn [snd].
  rewrite Hfd, rows_loop_first, row_loop_first_blank by assumption.
  destruct (row_loop_prefix daysInMonth today (Int k) mo ye 0 6 (0 + 1) 1
              ([] ++ [mk_td "" None])) as [r ->].
  match goal with
  | |- context [rows_loop _ _ _ _ _ _ _ ?d ?t] =>
      destruct (rows_loop_prefix daysInMonth today (Int k) mo ye 5 (0 + 1) d t)
        as [t' ->]
  end.
  reflexivity.
Qed.

(** C9. The two scripts do not produce the same day cells: for February 2024
    the icon-driven [calendar] starts with an inactive cell labelled 28, the
    table-driven [showCalendar] with an empty cell, whatever [daysInMonth]
    computes and whatever the clock and the globals hold. *)
Theorem implementations_differ (daysInMonth : num -> num -> num)
    (today : JsDate.t) (now : Z) :
  exists y m, 0 <= m <= 11 /\
    forall d txt lis,
      let p := mk_page d (Int y) (Int m) txt lis in
      hd_error (calendar_cells now p) = Some (mk_cell (Some (Int 28)) false false) /\
      hd_error (showCalendar_cells daysInMonth today (Int m) (Int y)) =
        Some (mk_cell None false false) /\
      calendar_cells now p <> showCalendar_cells daysInMonth today (Int m) (Int y).
Proof.
  exists 2024, 1. split; [lia |]. intros d txt lis p.
  assert (Hy : representable_year 2024) by (unfold representable_year; lia).
  assert (A : hd_error (calendar_cells now p)
              = Some (mk_cell (Some (Int 28)) false false)).
  { unfold calendar_cells.
    destruct (calendar_month_runs now p 2024 1 Hy ltac:(lia) eq_refl eq_refl
                4 29 31 eq_refl eq_refl eq_refl) as (E & _).
    cbn [cells grid_of] in E. rewrite E. reflexivity. }
  assert (B : hd_error (showCalendar_cells daysInMonth today (Int 1) (Int 2024))
              = Some (mk_cell None false false)).
  { apply (showCalendar_starts_blank daysInMonth today (Int 1) (Int 2024) 4);
      [reflexivity | lia]. }
  repeat split; trivial.
  intros E. rewrite E, B in A. clear E. discriminate A.
Qed.

(** * The properties at work on concrete pages *)

Lemma representable_2024 : representable_year 2024.
Proof. unfold representable_year. lia. Defined.


(** C2, as amended, on the page of 27 February 2024. *)
Lemma february_2024_grid_witness :
  currYear february_2024 = Int 2024 /\ currMonth february_2024 = Int 1 /\
  let cs := cells (grid_of (calendar 19780 february_2024)) in
  firstWeekday february_2024 = Int 4 /\
  map dayNumber (leading_cells cs) = [Int 28; Int 29; Int 30; Int 31] /\
  Forall (fun c => isCurrentMonth c = false) (leading_cells cs) /\
  map dayNumber (active_cells cs) = map Int (Zup 1 29) /\
  List.length (active_cells cs) = 29%nat /\
  Forall (fun c => isCurrentMonth c = true) (active_cells cs) /\
  map dayNumber (trailing_cells cs) = [Int 1; Int 2] /\
  Forall (fun c => isCurrentMonth c = false) (trailing_cells cs) /\
  cs = leading_cells cs ++ active_cells cs ++ trailing_cells cs /\
  List.length cs = 35%nat.
Proof.
  split; [reflexivity |]. split; [reflexivity |].
  apply (february_2024_grid 19780 february_2024); reflexivity.
Defined.


(** C4, as amended, on the page of 27 February 2024. *)
Lemma active_cells_first_and_last_witness :
  representable_year 2024 /\ 0 <= 1 <= 11 /\ 2024 <> 0 /\
  currYear february_2024 = Int 2024 /\ currMonth february_2024 = Int 1 /\
  let act := active_cells (cells (grid_of (calendar 19780 february_2024))) in
  hd_error (map dayNumber act) = Some (Int 1) /\
  last (map dayNumber act) NaN = Int (standard_month_days 2024 1) /\
  Z.of_nat (List.length act) = standard_month_days 2024 1.
Proof.
  split; [exact representable_2024 |]. split; [lia |]. split; [lia |].
  split; [reflexivity |]. split; [reflexivity |].
  apply (proj1 active_cells_first_and_last 19780 february_2024 2024 1);
    [exact representable_2024 | lia | lia | reflexivity | reflexivity].
Defined.


(** C7, as amended, on January 300000. *)
Lemma computeGrid_never_fails_witness :
  0 <= 0 <= 11 /\
  mk (Int 300000) (Int (0 + 1)) (Int 0) = None /\
  Forall (fun c => isCurrentMonth c = false) (cells (computeGrid 300000 0 19780)).
Proof.
  assert (H1 : 0 <= 0 <= 11) by lia.
  split; [exact H1 |]. split; [reflexivity |].
  exact (proj2 (proj2 (computeGrid_never_fails 300000 0 19780)) H1 eq_refl).
Defined.

(** C8, as amended, on two pages that show February 2024 and differ in
    everything else. *)
Lemma computeGrid_deterministic_witness :
  currYear february_2024 = currYear (mk_page None (Int 2024) (Int 1) "x" []) /\
  currMonth february_2024 = currMonth (mk_page None (Int 2024) (Int 1) "x" []) /\
  icon_click "next" 19780 february_2024 =
  icon_click "next" 19780 (mk_page None (Int 2024) (Int 1) "x" []).
Proof.
  split; [reflexivity |]. split; [reflexivity |].
  exact (proj1 (proj2 computeGrid_deterministic) "next"%string 19780
           february_2024 (mk_page None (Int 2024) (Int 1) "x" [])
           eq_refl eq_refl).
Defined.

(** * Further properties of the icon-driven calendar *)

Module CalendarMore.
Import JsDate DateFacts LoopFacts MonthFacts GridFacts.

Lemma Zup_app a n k : Zup a (n + k) = Zup a n ++ Zup (a + Z.of_nat n) k.
Proof.
  revert a. induction n as [| n IH]; intros a.
  - cbn [Nat.add Zup app]. now rewrite Z.add_0_r.
  - change (Zup a (S n + k)) with (a :: Zup (a + 1) (n + k)).
    rewrite IH, Nat2Z.inj_succ. cbn [Zup app]. do 3 f_equal. lia.
Qed.

Lemma nth_error_Zup a n i : (i < n)%nat -> nth_error (Zup a n) i = Some (a + Z.of_nat i).
Proof.
  revert a i. induction n as [| n IH]; intros a i Hi; [lia |].
  destruct i as [| i]; cbn [Zup nth_error].
  - now rewrite Z.add_0_r.
  - rewrite IH by lia. f_equal. lia.
Qed.

(** The weekday of a day of the month, from the weekday of the first. *)
Lemma getDay_of_date y m d :
  representable_year y -> 0 <= m <= 11 -> 1 <= d <= 31 ->
  getDay (mk (Int y) (Int m) (Int d)) =
  Int ((WeekDay (MakeDay (full_year y) m 1) + d - 1) mod 7).
Proof.
  intros Hy Hm Hd. rewrite mk_valid by (trivial; lia). cbn [getDay getter]. f_equal.
  replace d with (1 + (d - 1)) at 1 by lia. rewrite MakeDay_shift. unfold WeekDay.
  generalize (MakeDay (full_year y) m 1). intros z. zdiv.
Qed.

(** X1. In the grid of a month, the cell of day [d] stands in the column of
    the weekday of [new Date(year, month, d)]: the grid has seven columns,
    Sunday first, and every day of the month is under its weekday. *)
Theorem day_under_its_weekday (now : Z) (p : page) (y m d : Z) :
  representable_year y -> 0 <= m <= 11 ->
  currYear p = Int y -> currMonth p = Int m ->
  1 <= d -> le (Int d) (lastDateOfMonth p) = true ->
  exists i : nat,
    nth_error (cells (grid_of (calendar now p))) i = Some (month_cell now p d) /\
    getDay (mk (Int y) (Int m) (Int d)) = Int (Z.of_nat i mod 7).
Proof.
  intros Hy Hm HY HM Hd1 Hd2.
  rewrite (lastDateOfMonth_valid p y m) in Hd2 by assumption.
  pose proof (standard_month_days_bounds (full_year y) m) as HL.
  assert (Hd : d <= standard_month_days (full_year y) m).
  { cbn [le] in Hd2. now apply Z.leb_le in Hd2. }
  pose proof (WeekDay_range (MakeDay (full_year y) m 1)) as Hfw.
  exists (Z.to_nat (WeekDay (MakeDay (full_year y) m 1) + d - 1)). split.
  - destruct (calendar_month_runs now p y m Hy Hm HY HM _ _ _ eq_refl eq_refl eq_refl)
      as [E _].
    cbv zeta in E. rewrite E.
    rewrite nth_error_app2; rewrite !length_map, Zup_length; [| lia].
    rewrite nth_error_app1 by (rewrite length_map, Zup_length; lia).
    rewrite nth_error_map, nth_error_Zup by lia. cbn [option_map]. do 2 f_equal. lia.
  - rewrite getDay_of_date by (trivial; lia). now rewrite Z2Nat.id by lia.
Qed.

(** X2. The cells of a month are its leading inactive cells, then the cells
    of the month, then the trailing inactive cells, never mixed; the trailing
    cells are numbered 1, 2, ... up to 6 minus the weekday of the last day,
    and neither run of inactive cells fills a week. *)
Theorem three_runs_of_a_month (now : Z) (p : page) (y m : Z) :
  representable_year y -> 0 <= m <= 11 ->
  currYear p = Int y -> currMonth p = Int m ->
  let cs := cells (grid_of (calendar now p)) in
  exists ld : Z,
    lastWeekday p = Int ld /\ 0 <= ld <= 6 /\
    cs = leading_cells cs ++ active_cells cs ++ trailing_cells cs /\
    Forall (fun c => isCurrentMonth c = false) (leading_cells cs) /\
    Forall (fun c => isCurrentMonth c = true) (active_cells cs) /\
    Forall (fun c => isCurrentMonth c = false) (trailing_cells cs) /\
    map dayNumber (trailing_cells cs) = map Int (Zup 1 (Z.to_nat (6 - ld))) /\
    (List.length (leading_cells cs) <= 6)%nat /\
    (List.length (trailing_cells cs) <= 6)%nat.
Proof.
  intros Hy Hm HY HM cs.
  pose proof (WeekDay_range (MakeDay (full_year y) m 1)) as Hfw.
  pose proof (Z.mod_pos_bound (WeekDay (MakeDay (full_year y) m 1)
                + standard_month_days (full_year y) m - 1) 7 ltac:(lia)) as Hld.
  exists ((WeekDay (MakeDay (full_year y) m 1)
           + standard_month_days (full_year y) m - 1) mod 7).
  split; [now apply lastWeekday_valid |]. split; [lia |].
  destruct (calendar_month_runs now p y m Hy Hm HY HM _ _ _ eq_refl eq_refl eq_refl)
    as (E & E1 & E2 & E3).
  cbv zeta in E, E1, E2, E3. subst cs. rewrite E1, E2, E3.
  split; [exact E |].
  split; [apply Forall_map_intro; reflexivity |].
  split; [apply Forall_map_intro, month_cell_current |].
  split; [apply Forall_map_intro; reflexivity |].
  split; [apply map_dayNumber_inactive |].
  rewrite !length_map, !Zup_length. lia.
Qed.

(** The day of the month of a day exists in its month. *)
Lemma DateFromDay_in_month d :
  0 <= MonthFromDay d <= 11 /\
  DateFromDay d <= standard_month_days (YearFromDay d) (MonthFromDay d).
Proof.
  unfold DateFromDay, MonthFromDay, DayWithinYear, standard_month_days. cbv zeta.
  rewrite <- InLeapYear_leap_year.
  pose proof (YearFromDay_spec d) as S. rewrite DayFromYear_succ in S.
  set (w := d - DayFromYear (YearFromDay d)) in *.
  assert (Hw : 0 <= w <= 364 + leapDay (YearFromDay d)) by (unfold w; lia).
  clearbody w. clear S. revert Hw. unfold leapDay.
  destruct (InLeapYear (YearFromDay d)); intros Hw;
    repeat match goal with
           | |- context [?a <? ?b] => destruct (Z.ltb_spec a b)
           end; eval_monthStart; cbn [Z.eqb Pos.eqb orb]; cbv beta iota; lia.
Qed.

Lemma no_today_before now p d : forall n a,
  getDate (date p) = Int d -> a + Z.of_nat n <= d ->
  filter isToday (map (month_cell now p) (Zup a n)) = [].
Proof.
  induction n as [| n IH]; intros a Hd Ha; [reflexivity |].
  cbn [Zup map filter]. rewrite IH by (trivial; lia).
  unfold isToday, month_cell, today_class. cbn [className]. rewrite Hd.
  cbn [strict_eq]. destruct (Z.eqb_spec a d); [lia | reflexivity].
Qed.

Lemma today_in_run now p d n :
  getDate (date p) = Int d ->
  currMonth p = getMonth (Some now) -> currYear p = getFullYear (Some now) ->
  1 <= d <= Z.of_nat n ->
  filter isToday (map (month_cell now p) (Zup 1 n)) = [mk_li "active" (Int d)].
Proof.
  intros Hd HM HY Hr.
  replace n with (Z.to_nat (d - 1) + (1 + (n - Z.to_nat d)))%nat by lia.
  rewrite Zup_app, map_app, filter_app.
  rewrite no_today_before with (d := d) by (trivial; lia).
  rewrite Z2Nat.id by lia. replace (1 + (d - 1)) with d by lia.
  cbn [Nat.add Zup map filter app].
  rewrite no_today_after with (d := d) by (trivial; lia).
  unfold isToday, month_cell, today_class. cbn [className].
  rewrite Hd, HM, HY. cbn [getMonth getFullYear getter strict_eq].
  now rewrite !Z.eqb_refl.
Qed.

(** X3. When the month shown is the month of the clock, exactly one cell is
    marked as today, and it is the cell of the clock's day of the month. *)
Theorem today_is_marked (p : page) (today : Z) :
  representable_year (YearFromDay today) -> ~ 0 <= YearFromDay today <= 99 ->
  filter isToday
    (cells (computeGrid_on p (YearFromDay today) (MonthFromDay today) today)) =
  [mk_li "active" (Int (DateFromDay today))].
Proof.
  intros Hy H99. destruct (DateFromDay_in_month today) as [Hm Hd].
  pose proof (DateFromDay_range today) as Hr.
  unfold computeGrid_on. rewrite settle_in_range by assumption.
  cbn [cells grid_of]. rewrite calendar_runs.
  set (q := mk_page (Some today) (Int (YearFromDay today)) (Int (MonthFromDay today))
              (currentDate_innerText p) (daysTag_innerHTML p)).
  destruct (leading_run_spec q) as [A _]. destruct (trailing_run_spec q) as [C _].
  rewrite !filter_app, A, C, app_nil_r. cbn [app].
  unfold month_run.
  rewrite (lastDateOfMonth_valid q (YearFromDay today) (MonthFromDay today))
    by (trivial; reflexivity).
  assert (F : full_year (YearFromDay today) = YearFromDay today).
  { unfold full_year.
    destruct ((0 <=? YearFromDay today) && (YearFromDay today <=? 99)) eqn:E;
      [| reflexivity].
    apply andb_prop in E as [E1 E2]. apply Z.leb_le in E1, E2. lia. }
  rewrite F. apply today_in_run; try reflexivity. lia.
Qed.

End CalendarMore.

(** * The icon click handler *)

Module IconNav.
Import JsDate DateFacts LoopFacts MonthFacts GridFacts.

Lemma icon_click_unfold icon_id now p y m :
  currYear p = Int y -> currMonth p = Int m ->
  icon_click icon_id now p =
  calendar now (settle now (mk_page (date p) (Int y) (Int (stepped icon_id m))
                              (currentDate_innerText p) (daysTag_innerHTML p))).
Proof.
  intros HY HM. unfold icon_click, stepped. rewrite HY, HM.
  now destruct (String.eqb icon_id "prev").
Qed.

Lemma icon_click_grid icon_id now p y m :
  currYear p = Int y -> currMonth p = Int m ->
  grid_of (icon_click icon_id now p) = computeGrid_on p y (stepped icon_id m) now.
Proof.
  intros HY HM. now rewrite (icon_click_unfold icon_id now p y m).
Qed.

(** [settle] on a month out of 0..11, for any year: the year is read the way
    [Date] reads it. *)
Lemma settle_carry today d txt lis y m :
  m < 0 \/ 11 < m ->
  representable_year (full_year y + m / 12) ->
  DateFromDay today <= standard_month_days (full_year y + m / 12) (m mod 12) ->
  settle today (mk_page d (Int y) (Int m) txt lis) =
  mk_page (Some (MakeDay (full_year y + m / 12) (m mod 12) (DateFromDay today)))
    (Int (full_year y + m / 12)) (Int (m mod 12)) txt lis.
Proof.
  intros Hm Hr Hd. unfold settle. cbn [currMonth currYear lt gt
    currentDate_innerText daysTag_innerHTML getDate getter].
  assert (C : (m <? 0) || (11 <? m) = true).
  { apply orb_true_iff. rewrite !Z.ltb_lt. exact Hm. }
  rewrite C. unfold mk. fold (full_year y). cbv zeta.
  pose proof (DateFromDay_range today) as R.
  pose proof (Z.mod_pos_bound m 12 ltac:(lia)) as Hmod.
  rewrite MakeDay_carry, TimeClip_in_range.
  - cbn [getFullYear getMonth getter].
    destruct (decode_MakeDay (full_year y + m / 12) (m mod 12) (DateFromDay today))
      as (E1 & E2 & _); [lia | lia |].
    now rewrite E1, E2.
  - pose proof (DayFromYear_representable _ Hr) as B.
    rewrite DayFromYear_succ in B. rewrite MakeDay_in_year by lia.
    pose proof (monthStart_range (full_year y + m / 12) (m mod 12) ltac:(lia)).
    pose proof (leapDay_cases (full_year y + m / 12)). lia.
Qed.

Lemma full_year_id y : ~ 0 <= y <= 99 -> full_year y = y.
Proof.
  intros H. unfold full_year.
  destruct ((0 <=? y) && (y <=? 99)) eqn:E; [| reflexivity].
  apply andb_prop in E as [E1 E2]. apply Z.leb_le in E1, E2. lia.
Qed.

Lemma standard_month_days_31 y m : m = 0 \/ m = 11 -> standard_month_days y m = 31.
Proof. intros [-> | ->]; reflexivity. Qed.

(** The globals after a click, for a month in 0..11. *)
Lemma icon_click_globals icon_id now p y m :
  0 <= m <= 11 ->
  representable_year (full_year y - 1) -> representable_year (full_year y + 1) ->
  currYear p = Int y -> currMonth p = Int m ->
  let m' := stepped icon_id m in
  let Y := if (m' <? 0) || (11 <? m') then full_year y else y in
  currYear (icon_click icon_id now p) = Int (Y + m' / 12) /\
  currMonth (icon_click icon_id now p) = Int (m' mod 12) /\
  getDate (date (icon_click icon_id now p)) = Int (DateFromDay now).
Proof.
  intros Hm Hr1 Hr2 HY HM m' Y. rewrite (icon_click_unfold icon_id now p y m HY HM).
  fold m'. assert (Hrange : -1 <= m' <= 12).
  { unfold m', stepped. destruct (String.eqb icon_id "prev"); lia. }
  unfold calendar, calendar_fuel. cbn [currYear currMonth date].
  subst Y. destruct ((m' <? 0) || (11 <? m')) eqn:C.
  - apply orb_true_iff in C. rewrite !Z.ltb_lt in C.
    assert (Hcases : m' = -1 \/ m' = 12) by lia.
    assert (Hdiv : m' / 12 = -1 /\ m' mod 12 = 11 \/ m' / 12 = 1 /\ m' mod 12 = 0).
    { destruct Hcases as [-> | ->]; [left | right]; split; reflexivity. }
    pose proof (DateFromDay_range now) as R.
    rewrite settle_carry; cbn [currYear currMonth date getDate getter].
    + repeat split. f_equal. apply decode_MakeDay; [lia |].
      rewrite standard_month_days_31 by lia. lia.
    + exact C.
    + destruct Hdiv as [[-> _] | [-> _]]; assumption.
    + rewrite standard_month_days_31 by lia. lia.
  - apply orb_false_iff in C. rewrite !Z.ltb_ge in C.
    rewrite settle_in_range by lia. cbn [currYear currMonth date getDate getter].
    rewrite Z.div_small, Z.mod_small, Z.add_0_r by lia. repeat split.
Qed.

(** One click, in full. *)
Lemma icon_click_step (icon_id : string) (now : Z) (p : page) (y m : Z) :
  0 <= m <= 11 -> ~ 0 <= y <= 99 ->
  representable_year (y - 1) -> representable_year (y + 1) ->
  currYear p = Int y -> currMonth p = Int m ->
  exists y' m',
    currYear (icon_click icon_id now p) = Int y' /\
    currMonth (icon_click icon_id now p) = Int m' /\
    0 <= m' <= 11 /\
    12 * y' + m' = 12 * y + m + (if String.eqb icon_id "prev" then -1 else 1) /\
    forall q, grid_of (icon_click icon_id now p) = computeGrid_on q y' m' now.
Proof.
  intros Hm H99 Hr1 Hr2 HY HM.
  pose proof (full_year_id y H99) as F.
  destruct (icon_click_globals icon_id now p y m Hm) as (E1 & E2 & _);
    try assumption; rewrite ?F; try assumption.
  cbv zeta in E1, E2. rewrite F in E1.
  assert (EY : (if (stepped icon_id m <? 0) || (11 <? stepped icon_id m) then y else y) = y)
    by (destruct (_ || _); reflexivity).
  rewrite EY in E1.
  exists (y + stepped icon_id m / 12), (stepped icon_id m mod 12).
  split; [exact E1 |]. split; [exact E2 |].
  assert (Hrange : -1 <= stepped icon_id m <= 12).
  { unfold stepped. destruct (String.eqb icon_id "prev"); lia. }
  pose proof (Z.mod_pos_bound (stepped icon_id m) 12 ltac:(lia)) as Hmod.
  split; [lia |]. split.
  - pose proof (Z.div_mod (stepped icon_id m) 12 ltac:(lia)) as D.
    unfold stepped in *. destruct (String.eqb icon_id "prev"); lia.
  - intros q. rewrite (icon_click_grid icon_id now p y m HY HM).
    destruct (Z_le_gt_dec 0 (stepped icon_id m)) as [H0 | H0];
      [destruct (Z_le_gt_dec (stepped icon_id m) 11) as [H11 | H11] |].
    + rewrite Z.div_small, Z.mod_small, Z.add_0_r by lia.
      unfold computeGrid_on. f_equal. apply render_deterministic.
    + apply carry_into_year; [lia | assumption | |].
      * replace (stepped icon_id m) with 12 by lia. exact Hr2.
      * replace (stepped icon_id m) with 12 by lia.
        pose proof (DateFromDay_range now). rewrite standard_month_days_31; [lia | now left].
    + apply carry_into_year; [lia | assumption | |].
      * replace (stepped icon_id m) with (-1) by lia. exact Hr1.
      * replace (stepped icon_id m) with (-1) by lia.
        pose proof (DateFromDay_range now). rewrite standard_month_days_31; [lia | now right].
Qed.

(** X4. A click moves the view by one month: from month [m] of year [y],
    [next] leads to the month after and [prev] to the month before, the year
    following in December and January; the month stays within 0..11 and the
    grid shown is the one of the new month. *)
Theorem click_steps_one_month (icon_id : string) (now : Z) (p : page) (y m : Z) :
  0 <= m <= 11 -> ~ 0 <= y <= 99 ->
  representable_year (y - 1) -> representable_year (y + 1) ->
  currYear p = Int y -> currMonth p = Int m ->
  exists y' m',
    currYear (icon_click icon_id now p) = Int y' /\
    currMonth (icon_click icon_id now p) = Int m' /\
    0 <= m' <= 11 /\
    12 * y' + m' = 12 * y + m + (if String.eqb icon_id "prev" then -1 else 1) /\
    forall q, grid_of (icon_click icon_id now p) = computeGrid_on q y' m' now.
Proof. exact (icon_click_step icon_id now p y m). Qed.


(** X5. In a year outside -1..100 whose two neighbours on either side are
    representable, a click on [next] followed by a click on [prev] shows the
    month one started from, and so does [prev] followed by [next]; the clock
    may move between the clicks, the grid is the one of the second click's
    day.  (In the years -1..100 the round trip can fail, since [Date] reads a
    year from 0 to 99 as 1900 + year.) *)
Theorem next_then_prev_returns (now1 now2 : Z) (p : page) (y m : Z) :
  0 <= m <= 11 -> ~ -1 <= y <= 100 ->
  representable_year (y - 2) -> representable_year (y + 2) ->
  currYear p = Int y -> currMonth p = Int m ->
  let back := icon_click "prev" now2 (icon_click "next" now1 p) in
  let forth := icon_click "next" now2 (icon_click "prev" now1 p) in
  currYear back = Int y /\ currMonth back = Int m /\
  currYear forth = Int y /\ currMonth forth = Int m /\
  grid_of back = computeGrid_on p y m now2 /\
  grid_of forth = computeGrid_on p y m now2.
Proof.
  intros Hm Hy Hr1 Hr2 HY HM back forth.
  assert (R : forall k, -1 <= k <= 1 -> representable_year (y + k))
    by (unfold representable_year in *; intros; lia).
  assert (Two : forall id1 id2 : string,
    (if String.eqb id1 "prev" then -1 else 1)
    + (if String.eqb id2 "prev" then -1 else 1) = 0 ->
    let r := icon_click id2 now2 (icon_click id1 now1 p) in
    currYear r = Int y /\ currMonth r = Int m /\
    grid_of r = computeGrid_on p y m now2).
  { intros id1 id2 Hsum r.
    destruct (icon_click_step id1 now1 p y m) as (y1 & m1 & A1 & A2 & A3 & A4 & _);
      try assumption; try lia; [apply (R (-1)); lia | apply (R 1); lia |].
    assert (Hy1 : y - 1 <= y1 <= y + 1).
    { destruct (String.eqb id1 "prev"); lia. }
    destruct (icon_click_step id2 now2 (icon_click id1 now1 p) y1 m1)
      as (y2 & m2 & B1 & B2 & B3 & B4 & B5);
      try assumption; try lia; try (unfold representable_year in *; lia).
    assert (y2 = y /\ m2 = m) as [-> ->] by lia.
    subst r. repeat split; trivial. }
  destruct (Two "next" "prev")%string as (B1 & B2 & B3); [reflexivity |].
  destruct (Two "prev" "next")%string as (F1 & F2 & F3); [reflexivity |].
  subst back forth. repeat split; assumption.
Qed.

(** X6. With a year from 0 to 99 the handler leaves the century: [Date]
    reads such a year as 1900 + year, so [prev] in January leads to December
    of 1899 + year and [next] in December to January of 1901 + year. *)
Theorem two_digit_year_jumps_to_1900s (now : Z) (p : page) (y : Z) :
  0 <= y <= 99 -> currYear p = Int y ->
  (currMonth p = Int 0 ->
   currYear (icon_click "prev" now p) = Int (1899 + y) /\
   currMonth (icon_click "prev" now p) = Int 11) /\
  (currMonth p = Int 11 ->
   currYear (icon_click "next" now p) = Int (1901 + y) /\
   currMonth (icon_click "next" now p) = Int 0).
Proof.
  intros Hy HY.
  assert (F : full_year y = 1900 + y).
  { unfold full_year. destruct (Z.leb_spec 0 y); [| lia].
    destruct (Z.leb_spec y 99); [reflexivity | lia]. }
  split; intros HM.
  - destruct (icon_click_globals "prev" now p y 0) as (E1 & E2 & _);
      try assumption; try lia;
      try (rewrite F; unfold representable_year; lia).
    cbv zeta in E1, E2. change (stepped "prev" 0) with (-1) in E1, E2.
    cbn [Z.ltb Z.compare orb] in E1. rewrite F in E1.
    split; [rewrite E1; f_equal; change (-1 / 12) with (-1); lia | exact E2].
  - destruct (icon_click_globals "next" now p y 11) as (E1 & E2 & _);
      try assumption; try lia;
      try (rewrite F; unfold representable_year; lia).
    cbv zeta in E1, E2. change (stepped "next" 11) with 12 in E1, E2.
    cbn [Z.ltb Z.compare Pos.compare Pos.compare_cont orb] in E1. rewrite F in E1.
    split; [rewrite E1; f_equal; change (12 / 12) with 1; lia | exact E2].
Qed.

(** The grid of a page whose month is [NaN]. *)
Lemma calendar_NaN_month now d cy txt lis :
  calendar now (mk_page d cy NaN txt lis) =
  mk_page d cy NaN ("undefined " ++ to_string cy)%string [].
Proof. destruct cy; reflexivity. Qed.

(** X7. A click that asks [Date] for a day it cannot hold loses the view:
    the year and the month become [NaN], the list of days is emptied and the
    heading reads "undefined NaN". *)
Theorem click_out_of_range_loses_view (icon_id : string) (now : Z) (p : page)
    (y m : Z) :
  currYear p = Int y -> currMonth p = Int m ->
  stepped icon_id m < 0 \/ 11 < stepped icon_id m ->
  mk (Int y) (Int (stepped icon_id m)) (Int (DateFromDay now)) = None ->
  currYear (icon_click icon_id now p) = NaN /\
  currMonth (icon_click icon_id now p) = NaN /\
  cells (grid_of (icon_click icon_id now p)) = [] /\
  label (grid_of (icon_click icon_id now p)) = "undefined NaN"%string.
Proof.
  intros HY HM Hout Hnone. rewrite (icon_click_unfold icon_id now p y m HY HM).
  unfold settle. cbn [currYear currMonth currentDate_innerText daysTag_innerHTML
                       lt gt getDate getter].
  assert (C : (stepped icon_id m <? 0) || (11 <? stepped icon_id m) = true).
  { apply orb_true_iff. now rewrite !Z.ltb_lt. }
  rewrite C, Hnone. cbn [getFullYear getMonth getter].
  rewrite calendar_NaN_month. repeat split.
Qed.

(** X8. Once the month is [NaN] no click brings a month back: the month stays
    [NaN], the year is kept, and the list of days stays empty. *)
Theorem NaN_month_is_kept (icon_id : string) (now : Z) (p : page) :
  currMonth p = NaN ->
  currMonth (icon_click icon_id now p) = NaN /\
  currYear (icon_click icon_id now p) = currYear p /\
  cells (grid_of (icon_click icon_id now p)) = [] /\
  label (grid_of (icon_click icon_id now p)) =
    ("undefined " ++ to_string (currYear p))%string.
Proof.
  intros HM. unfold icon_click. rewrite HM.
  assert (E : (if String.eqb icon_id "prev" then sub NaN (Int 1) else add NaN (Int 1)) = NaN)
    by (destruct (String.eqb icon_id "prev"); reflexivity).
  rewrite E. unfold settle. cbn [currYear currMonth currentDate_innerText
    daysTag_innerHTML lt gt orb].
  rewrite calendar_NaN_month. repeat split.
Qed.

End IconNav.

(** * The table-driven script *)

Module TableFacts.
Import JsDate DateFacts LoopFacts MonthFacts GridFacts CalendarMore TableNav.

Section Rows.

Variable daysInMonth : num -> num -> num.
Variable today : JsDate.t.
Variables (fd mo ye : num).

(** Both loops append to what they are given. *)
Lemma row_loop_acc : forall fuel i j date row,
  row_loop daysInMonth today fuel fd mo ye i j date row =
  (fst (row_loop daysInMonth today fuel fd mo ye i j date []),
   row ++ snd (row_loop daysInMonth today fuel fd mo ye i j date [])).
Proof.
  induction fuel as [| fuel IH]; intros i j date row.
  - cbn. now rewrite app_nil_r.
  - cbn [row_loop]. destruct (j <? 7); [| cbn; now rewrite app_nil_r].
    destruct ((i =? 0) && lt (Int j) fd).
    + rewrite IH. rewrite (IH i (j + 1) date ([] ++ _)). cbn [fst snd app].
      now rewrite <- app_assoc.
    + destruct (gt (Int date) (daysInMonth mo ye)); [cbn; now rewrite app_nil_r |].
      rewrite IH. rewrite (IH i (j + 1) (date + 1) ([] ++ _)). cbn [fst snd app].
      now rewrite <- app_assoc.
Qed.

Lemma rows_loop_acc : forall fuel i date tbl,
  rows_loop daysInMonth today fuel fd mo ye i date tbl =
  tbl ++ rows_loop daysInMonth today fuel fd mo ye i date [].
Proof.
  induction fuel as [| fuel IH]; intros i date tbl.
  - cbn. now rewrite app_nil_r.
  - cbn [rows_loop]. destruct (i <? 6); [| now rewrite app_nil_r].
    destruct (row_loop daysInMonth today 7 fd mo ye i 0 date []) as [date' row].
    rewrite IH. rewrite (IH (i + 1) date' ([] ++ [row])). now rewrite <- app_assoc.
Qed.

(** A row holds at most as many cells as the inner loop has rounds. *)
Lemma row_loop_length : forall fuel i j date,
  (List.length (snd (row_loop daysInMonth today fuel fd mo ye i j date [])) <= fuel)%nat.
Proof.
  induction fuel as [| fuel IH]; intros i j date; [cbn; lia |].
  cbn [row_loop]. destruct (j <? 7); [| cbn; lia].
  destruct ((i =? 0) && lt (Int j) fd).
  - rewrite row_loop_acc. cbn [snd]. rewrite length_app. cbn [List.length app].
    specialize (IH i (j + 1) date). lia.
  - destruct (gt (Int date) (daysInMonth mo ye)); [cbn; lia |].
    rewrite row_loop_acc. cbn [snd]. rewrite length_app. cbn [List.length app].
    specialize (IH i (j + 1) (date + 1)). lia.
Qed.

Lemma rows_loop_shape : forall fuel i date,
  0 <= i -> Z.of_nat fuel = 6 - i ->
  List.length (rows_loop daysInMonth today fuel fd mo ye i date []) = fuel /\
  Forall (fun row => (List.length row <= 7)%nat)
    (rows_loop daysInMonth today fuel fd mo ye i date []).
Proof.
  induction fuel as [| fuel IH]; intros i date Hi Hf; [split; [reflexivity | constructor] |].
  cbn [rows_loop]. destruct (Z.ltb_spec i 6); [| lia].
  pose proof (row_loop_length 7 i 0 date) as Hrow.
  destruct (row_loop daysInMonth today 7 fd mo ye i 0 date []) as [date' row].
  cbn [snd] in Hrow. rewrite rows_loop_acc. cbn [app].
  destruct (IH (i + 1) date') as [L F]; [lia | lia |].
  split; [cbn [List.length]; now rewrite L | constructor; assumption].
Qed.

End Rows.

(** X9. Whatever [daysInMonth] answers, the table body gets exactly six rows
    of at most seven cells each, so never more than 42 cells. *)
Theorem showCalendar_six_rows (daysInMonth : num -> num -> num) (today : JsDate.t)
    (month year : num) :
  let rows := snd (showCalendar daysInMonth today month year) in
  List.length rows = 6%nat /\
  Forall (fun row => (List.length row <= 7)%nat) rows /\
  (List.length (List.concat rows) <= 42)%nat.
Proof.
  cbv zeta. unfold showCalendar. cbn [snd].
  destruct (rows_loop_shape daysInMonth today (getDay (mk2 year month)) month year
              6 0 1 ltac:(lia) ltac:(reflexivity)) as [L F].
  split; [exact L |]. split; [exact F |].
  revert L F.
  generalize (rows_loop daysInMonth today 6 (getDay (mk2 year month)) month year 0 1 []).
  intros rows L F.
  assert (G : forall rs : list (list td),
             Forall (fun row => (List.length row <= 7)%nat) rs ->
             (List.length (List.concat rs) <= 7 * List.length rs)%nat).
  { induction 1 as [| r rs Hr _ IH]; [cbn; lia |].
    cbn [List.concat List.length]. rewrite length_app. lia. }
  specialize (G rows F). lia.
Qed.


Section Content.

Variable daysInMonth : num -> num -> num.
Variable today : JsDate.t.
Variables (mo ye : num) (k n : Z).
Hypothesis Hdays : daysInMonth mo ye = Int n.

(** A row from column [j] on, once the empty cells are behind: dates until
    the row or the month ends. *)
Lemma row_of_dates i : forall c fuel j date,
  i <> 0 \/ k <= j ->
  c = Z.to_nat (Z.min (7 - j) (n - date + 1)) -> (Z.to_nat (7 - j) <= fuel)%nat ->
  row_loop daysInMonth today fuel (Int k) mo ye i j date [] =
  (date + Z.of_nat c, map (date_td today mo ye) (Zup date c)).
Proof.
  assert (B : forall j, i <> 0 \/ k <= j -> (i =? 0) && lt (Int j) (Int k) = false).
  { intros j [H | H]; cbn [lt].
    - apply Z.eqb_neq in H. now rewrite H.
    - apply andb_false_iff. right. apply Z.ltb_ge. exact H. }
  induction c as [| c IH]; intros fuel j date Hj Hc Hf.
  - rewrite Z.add_0_r. destruct fuel as [| fuel]; [reflexivity |].
    cbn [row_loop Zup map]. destruct (Z.ltb_spec j 7); [| reflexivity].
    rewrite (B j Hj), Hdays. cbn [gt lt].
    destruct (Z.ltb_spec n date); [reflexivity | lia].
  - destruct fuel as [| fuel]; [lia |].
    cbn [row_loop]. destruct (Z.ltb_spec j 7); [| lia].
    rewrite (B j Hj), Hdays. cbn [gt lt].
    destruct (Z.ltb_spec n date); [lia |].
    rewrite row_loop_acc, (IH fuel (j + 1) (date + 1)) by lia.
    cbn [fst snd app Zup map]. f_equal. lia.
Qed.

(** The first row, from column [j] on, before the first of the month. *)
Lemma row_of_blanks : forall b fuel j date,
  b = Z.to_nat (k - j) -> 0 <= j -> k <= 7 -> (Z.to_nat (7 - j) <= fuel)%nat ->
  row_loop daysInMonth today fuel (Int k) mo ye 0 j date [] =
  (date + Z.of_nat (Z.to_nat (Z.min (7 - Z.max j k) (n - date + 1))),
   repeat blank_td b
   ++ map (date_td today mo ye)
        (Zup date (Z.to_nat (Z.min (7 - Z.max j k) (n - date + 1))))).
Proof.
  induction b as [| b IH]; intros fuel j date Hb Hj Hk Hf.
  - cbn [repeat app]. replace (Z.max j k) with j by lia.
    apply row_of_dates; [right; lia | lia | lia].
  - destruct fuel as [| fuel]; [lia |].
    cbn [row_loop]. destruct (Z.ltb_spec j 7); [| lia].
    change (0 =? 0) with true. cbn [andb lt].
    destruct (Z.ltb_spec j k); [| lia].
    rewrite row_loop_acc, (IH fuel (j + 1) date) by lia.
    cbn [fst snd app repeat]. replace (Z.max (j + 1) k) with (Z.max j k) by lia.
    reflexivity.
Qed.

(** The rows after the first: the dates that are left, as long as they fit. *)
Lemma rows_of_dates : forall fuel i date,
  1 <= i -> Z.of_nat fuel = 6 - i -> 1 <= date <= n + 1 ->
  n - date + 1 <= 7 * (6 - i) ->
  List.concat (rows_loop daysInMonth today fuel (Int k) mo ye i date []) =
  map (date_td today mo ye) (Zup date (Z.to_nat (n - date + 1))).
Proof.
  induction fuel as [| fuel IH]; intros i date Hi Hf Hd Hfit.
  - replace (Z.to_nat (n - date + 1)) with 0%nat by lia. reflexivity.
  - cbn [rows_loop]. destruct (Z.ltb_spec i 6); [| lia].
    rewrite (row_of_dates i (Z.to_nat (Z.min (7 - 0) (n - date + 1))) 7 0 date)
      by (try left; lia).
    rewrite rows_loop_acc. cbn [app List.concat].
    rewrite IH by lia. rewrite <- map_app, <- Zup_app. do 2 f_equal. lia.
Qed.

(** The cells of the table, row after row. *)
Lemma showCalendar_content :
  getDay (mk2 ye mo) = Int k -> 0 <= k <= 6 -> 0 <= n -> k + n <= 42 ->
  List.concat (snd (showCalendar daysInMonth today mo ye)) =
  repeat blank_td (Z.to_nat k)
  ++ map (date_td today mo ye) (Zup 1 (Z.to_nat n)).
Proof.
  intros Hfd Hk Hn Hfit. unfold showCalendar. cbn [snd]. rewrite Hfd.
  rewrite rows_loop_first.
  rewrite (row_of_blanks (Z.to_nat (k - 0)) 7 0 1) by lia.
  cbn [fst snd]. rewrite rows_loop_acc. cbn [app List.concat].
  replace (Z.max 0 k) with k by lia.
  rewrite rows_of_dates by lia.
  rewrite <- app_assoc, <- map_app, <- Zup_app.
  replace (Z.to_nat (k - 0)) with (Z.to_nat k) by lia.
  do 3 f_equal. lia.
Qed.

End Content.

(** X10. When the first weekday is [k] and [daysInMonth] answers [n] days
    that fit in the six rows after [k] empty cells, the table holds, row after
    row, exactly [k] empty cells followed by the dates 1 to [n], each date
    carrying its number in [data-date]. *)
Theorem showCalendar_blanks_then_dates (daysInMonth : num -> num -> num)
    (today : JsDate.t) (month year : num) (k n : Z) :
  getDay (mk2 year month) = Int k -> 0 <= k <= 6 ->
  daysInMonth month year = Int n -> 0 <= n -> k + n <= 42 ->
  let tds := List.concat (snd (showCalendar daysInMonth today month year)) in
  tds = repeat blank_td (Z.to_nat k)
        ++ map (date_td today month year) (Zup 1 (Z.to_nat n)) /\
  map data_date tds =
    repeat None (Z.to_nat k) ++ map (fun d => Some (Int d)) (Zup 1 (Z.to_nat n)) /\
  Z.of_nat (List.length tds) = k + n.
Proof.
  intros Hfd Hk Hdays Hn Hfit tds.
  assert (E : tds = repeat blank_td (Z.to_nat k)
                    ++ map (date_td today month year) (Zup 1 (Z.to_nat n)))
    by (apply showCalendar_content; assumption).
  split; [exact E |]. rewrite E. split.
  - rewrite map_app, map_map, map_repeat. reflexivity.
  - rewrite length_app, repeat_length, length_map, Zup_length. lia.
Qed.

End TableFacts.

(** * The navigation of the table-driven script *)

Module TableNavFacts.
Import JsDate DateFacts MonthFacts GridFacts IconNav TableNav.

Lemma next_view_in_range y m :
  0 <= m <= 11 ->
  next_view (mk_view (Int m) (Int y)) =
  mk_view (Int (if m =? 11 then 0 else m + 1)) (Int (if m =? 11 then y + 1 else y)).
Proof.
  intros Hm. unfold next_view. cbn [currentMonth currentYear strict_eq add rem].
  change (12 =? 0) with false. cbv iota.
  destruct (Z.eqb_spec m 11) as [-> | Hne]; [reflexivity |].
  do 2 f_equal. apply Z.rem_small. lia.
Qed.

Lemma previous_view_in_range y m :
  0 <= m <= 11 ->
  previous_view (mk_view (Int m) (Int y)) =
  mk_view (Int (if m =? 0 then 11 else m - 1)) (Int (if m =? 0 then y - 1 else y)).
Proof.
  intros Hm. unfold previous_view. cbn [currentMonth currentYear strict_eq sub].
  now destruct (Z.eqb_spec m 0).
Qed.

(** X11. [next()] moves the view one month forward and [previous()] one month
    back, the year following in December and January: the month stays within
    0..11, and what [showCalendar] is called with is the new month and
    year. *)
Theorem next_and_previous_step_one_month (daysInMonth : num -> num -> num)
    (today : JsDate.t) (y m : Z) :
  0 <= m <= 11 ->
  exists yn mn yp mp,
    fst (next daysInMonth today (mk_view (Int m) (Int y))) = mk_view (Int mn) (Int yn) /\
    fst (previous daysInMonth today (mk_view (Int m) (Int y))) = mk_view (Int mp) (Int yp) /\
    0 <= mn <= 11 /\ month_index yn mn = month_index y m + 1 /\
    0 <= mp <= 11 /\ month_index yp mp = month_index y m - 1 /\
    snd (next daysInMonth today (mk_view (Int m) (Int y))) =
      showCalendar daysInMonth today (Int mn) (Int yn) /\
    snd (previous daysInMonth today (mk_view (Int m) (Int y))) =
      showCalendar daysInMonth today (Int mp) (Int yp).
Proof.
  intros Hm. unfold next, previous. cbn [fst snd].
  rewrite next_view_in_range, previous_view_in_range by assumption.
  cbn [currentMonth currentYear].
  exists (if m =? 11 then y + 1 else y), (if m =? 11 then 0 else m + 1),
    (if m =? 0 then y - 1 else y), (if m =? 0 then 11 else m - 1).
  unfold month_index.
  destruct (Z.eqb_spec m 11); destruct (Z.eqb_spec m 0); repeat split; lia.
Qed.

(** X12. [previous()] undoes [next()] and [next()] undoes [previous()], for
    every month in 0..11 of every year. *)
Theorem next_previous_round_trip (y m : Z) :
  0 <= m <= 11 ->
  previous_view (next_view (mk_view (Int m) (Int y))) = mk_view (Int m) (Int y) /\
  next_view (previous_view (mk_view (Int m) (Int y))) = mk_view (Int m) (Int y).
Proof.
  intros Hm. split.
  - rewrite next_view_in_range by assumption.
    rewrite previous_view_in_range by (destruct (Z.eqb_spec m 11); lia).
    repeat match goal with
           | |- context [?a =? ?b] => destruct (Z.eqb_spec a b)
           end; try lia; f_equal; f_equal; lia.
  - rewrite previous_view_in_range by assumption.
    rewrite next_view_in_range by (destruct (Z.eqb_spec m 0); lia).
    repeat match goal with
           | |- context [?a =? ?b] => destruct (Z.eqb_spec a b)
           end; try lia; f_equal; f_equal; lia.
Qed.

(** X13. [next()] brings a month of 12 or more back into 0..11 without
    carrying into the year, and leaves a month below -1 negative; such a
    month, which [jump()] can set, is thus never repaired into the month it
    stands for. *)
Theorem next_does_not_carry (y m : Z) :
  (12 <= m ->
   exists m', next_view (mk_view (Int m) (Int y)) = mk_view (Int m') (Int y) /\
              0 <= m' <= 11 /\ m' = (m + 1) mod 12) /\
  (m < -1 ->
   exists m', next_view (mk_view (Int m) (Int y)) = mk_view (Int m') (Int y) /\
              -11 <= m' <= 0) /\
  (m < 0 \/ 11 < m ->
   previous_view (mk_view (Int m) (Int y)) = mk_view (Int (m - 1)) (Int y)).
Proof.
  split; [| split].
  - intros Hm. exists (Z.rem (m + 1) 12).
    unfold next_view. cbn [currentMonth currentYear strict_eq add rem].
    change (12 =? 0) with false. cbv iota.
    destruct (Z.eqb_spec m 11); [lia |].
    rewrite Z.rem_mod_nonneg by lia.
    pose proof (Z.mod_pos_bound (m + 1) 12 ltac:(lia)). repeat split; lia.
  - intros Hm. exists (Z.rem (m + 1) 12).
    unfold next_view. cbn [currentMonth currentYear strict_eq add rem].
    change (12 =? 0) with false. cbv iota.
    destruct (Z.eqb_spec m 11); [lia |]. split; [reflexivity |].
    zdiv.
  - intros Hm. unfold previous_view. cbn [currentMonth currentYear strict_eq sub].
    destruct (Z.eqb_spec m 0); [lia | reflexivity].
Qed.

(** X14. The two scripts step alike: in a year after 99, the globals the icon
    handler leaves are those [next()] and [previous()] leave. *)
Theorem icon_and_table_navigation_agree (now : Z) (p : page) (y m : Z) :
  0 <= m <= 11 -> ~ 0 <= y <= 99 ->
  representable_year (y - 1) -> representable_year (y + 1) ->
  currYear p = Int y -> currMonth p = Int m ->
  mk_view (currMonth (icon_click "next" now p)) (currYear (icon_click "next" now p))
  = next_view (mk_view (Int m) (Int y)) /\
  mk_view (currMonth (icon_click "prev" now p)) (currYear (icon_click "prev" now p))
  = previous_view (mk_view (Int m) (Int y)).
Proof.
  intros Hm H99 Hr1 Hr2 HY HM.
  rewrite next_view_in_range, previous_view_in_range by assumption.
  pose proof (full_year_id y H99) as F.
  split.
  - destruct (icon_click_globals "next" now p y m Hm) as (E1 & E2 & _);
      rewrite ?F; try assumption.
    cbv zeta in E1, E2. rewrite E1, E2. change (stepped "next" m) with (m + 1).
    destruct (Z.eqb_spec m 11) as [-> | Hne]; [rewrite F; reflexivity |].
    rewrite Z.div_small, Z.mod_small by lia.
    destruct ((m + 1 <? 0) || (11 <? m + 1)); rewrite ?F; do 2 f_equal; lia.
  - destruct (icon_click_globals "prev" now p y m Hm) as (E1 & E2 & _);
      rewrite ?F; try assumption.
    cbv zeta in E1, E2. rewrite E1, E2. change (stepped "prev" m) with (m - 1).
    destruct (Z.eqb_spec m 0) as [-> | Hne]; [rewrite F; reflexivity |].
    rewrite Z.div_small, Z.mod_small by lia.
    destruct ((m - 1 <? 0) || (11 <? m - 1)); rewrite ?F; do 2 f_equal; lia.
Qed.

End TableNavFacts.

(** * The collapsible sections *)

Module CollapsibleFacts.
Import Collapsible.

Lemma to_string_px_truthy n : truthy (to_string (Int n) ++ "px") = true.
Proof.
  unfold truthy. destruct (to_string (Int n)) as [| c s]; reflexivity.
Qed.

Lemma truthy_false s : truthy s = false -> s = ""%string.
Proof. destruct s; [reflexivity | discriminate]. Qed.

Lemma click_spec (b : section) :
  active (click b) = negb (active b) /\
  expanded (click b) = negb (expanded b) /\
  (expanded b = true -> maxHeight (click b) = ""%string) /\
  (expanded b = false ->
   maxHeight (click b) = (to_string (Int (scrollHeight b)) ++ "px")%string).
Proof.
  split; [reflexivity |]. unfold expanded, click. cbn [maxHeight]. split.
  - destruct (truthy (maxHeight b)); [reflexivity | apply to_string_px_truthy].
  - split; intros ->; reflexivity.
Qed.

(** X15. A click flips both the [active] class and whether the section is
    expanded, so a button whose class tells the state of its section keeps
    telling it; an expanded section gets its [maxHeight] unset, a collapsed
    one gets its [scrollHeight] in pixels. *)
Theorem click_flips_class_and_section (b : section) :
  active (click b) = negb (active b) /\
  expanded (click b) = negb (expanded b) /\
  (active b = expanded b -> active (click b) = expanded (click b)) /\
  (expanded b = true -> maxHeight (click b) = ""%string) /\
  (expanded b = false ->
   maxHeight (click b) = (to_string (Int (scrollHeight b)) ++ "px")%string).
Proof.
  destruct (click_spec b) as (A & E & M1 & M2).
  split; [exact A |]. split; [exact E |].
  split; [intros H; now rewrite A, E, H |]. split; assumption.
Qed.

(** X16. Two clicks on a collapsed section leave it exactly as it was; on any
    section, three clicks do what one click does. *)
Theorem click_twice_restores (b : section) :
  (expanded b = false -> click (click b) = b) /\
  click (click (click b)) = click b.
Proof.
  destruct b as [a mh sh]. unfold expanded, click.
  cbn [active maxHeight scrollHeight]. split.
  - intros H. rewrite H, to_string_px_truthy, Bool.negb_involutive.
    now rewrite (truthy_false mh H).
  - destruct (truthy mh); cbn [truthy String.eqb negb];
      rewrite ?to_string_px_truthy; cbn [truthy String.eqb negb];
      rewrite ?to_string_px_truthy; now rewrite Bool.negb_involutive.
Qed.

(** X17. When the page loads with its sections collapsed and no button
    [active], the script leaves every section expanded to its [scrollHeight]
    and every button [active]. *)
Theorem onload_expands_all (buttons : list section) :
  Forall (fun b => active b = false /\ expanded b = false) buttons ->
  List.length (onload buttons) = List.length buttons /\
  Forall (fun b => active b = true /\ expanded b = true) (onload buttons) /\
  map maxHeight (onload buttons) =
    map (fun b => (to_string (Int (scrollHeight b)) ++ "px")%string) buttons.
Proof.
  intros H. unfold onload. split; [apply length_map |]. split.
  - induction H as [| b bs [Ha He] _ IH]; cbn [map]; constructor; [| exact IH].
    destruct (click_spec b) as (A & E & _).
    now rewrite A, E, Ha, He.
  - rewrite map_map. induction H as [| b bs [_ He] _ IH]; cbn [map]; [reflexivity |].
    f_equal; [| exact IH].
    now apply click_spec.
Qed.

End CollapsibleFacts.

(** * The week table *)

Module WeekTableFacts.
Import WeekTable.

Lemma has_dash_append h x : has_dash (h ++ String "-" x) = true.
Proof.
  induction h as [| c h IH]; cbn [String.append has_dash]; [reflexivity |].
  rewrite IH. apply orb_true_r.
Qed.

Lemma before_dash_none h : has_dash h = false -> before_dash h = h.
Proof.
  induction h as [| c h IH]; cbn [has_dash before_dash]; [reflexivity |].
  intros H. apply orb_false_iff in H as [H1 H2]. now rewrite H1, IH.
Qed.

Lemma before_dash_append h x :
  has_dash h = false -> before_dash (h ++ String "-" x) = h.
Proof.
  induction h as [| c h IH]; cbn [String.append has_dash before_dash]; [reflexivity |].
  intros H. apply orb_false_iff in H as [H1 H2]. now rewrite H1, IH.
Qed.

Lemma append_inj_l h x y : (h ++ x = h ++ y)%string -> x = y.
Proof.
  induction h as [| c h IH]; cbn [String.append]; [trivial |].
  intros H. injection H. exact IH.
Qed.

Lemma ids_rows_over hs ds : ids (rows_over hs ds) = flat_map (ids_of_hour ds) hs.
Proof.
  unfold ids, rows_over. induction hs as [| h hs IH]; [reflexivity |].
  cbn [map flat_map]. rewrite IH. f_equal.
  unfold ids_of_hour, hour_row. cbn [row_id row_cells map cell_id].
  now rewrite map_map.
Qed.

Lemma ids_of_hour_key ds hour x :
  has_dash hour = false -> In x (ids_of_hour ds hour) -> before_dash x = hour.
Proof.
  intros Hh [<- | [<- | Hin]].
  - apply (before_dash_append hour "row" Hh).
  - now apply before_dash_none.
  - apply in_map_iff in Hin as (d & <- & _). now apply before_dash_append.
Qed.

Lemma NoDup_map_injective {A B} (f : A -> B) l :
  (forall a b, f a = f b -> a = b) -> NoDup l -> NoDup (map f l).
Proof.
  intros Hf. induction 1 as [| a l Ha _ IH]; cbn [map]; constructor; [| exact IH].
  intros Hin. apply in_map_iff in Hin as (b & E & Hb). apply Hf in E. now subst.
Qed.

Lemma ids_of_hour_NoDup ds hour :
  has_dash hour = false -> NoDup ds -> ~ In "row"%string ds ->
  NoDup (ids_of_hour ds hour).
Proof.
  intros Hh Hds Hrow. unfold ids_of_hour.
  assert (Hmap : NoDup (map (fun day => (hour ++ "-" ++ day)%string) ds)).
  { apply NoDup_map_injective; [| exact Hds].
    intros a b E. apply append_inj_l in E. cbn [String.append] in E. now injection E. }
  constructor; [| constructor; [| exact Hmap]].
  - intros [E | Hin].
    + pose proof (has_dash_append hour "row") as D.
      change (hour ++ String "-" "row")%string with (hour ++ "-row")%string in D.
      rewrite E in D. congruence.
    + apply in_map_iff in Hin as (d & E & Hd).
      apply append_inj_l in E. cbn [String.append] in E. injection E as ->.
      contradiction.
  - intros Hin. apply in_map_iff in Hin as (d & E & _).
    pose proof (has_dash_append hour d) as D.
    change (hour ++ String "-" d)%string with (hour ++ "-" ++ d)%string in D.
    rewrite E in D. congruence.
Qed.

Lemma NoDup_flat_map_key {A B} (f : A -> list B) (key : B -> A) l :
  NoDup l -> (forall a, In a l -> NoDup (f a)) ->
  (forall a x, In a l -> In x (f a) -> key x = a) ->
  NoDup (flat_map f l).
Proof.
  induction 1 as [| a l Ha Hl IH]; intros Hf Hkey; cbn [flat_map]; [constructor |].
  assert (Hrest : NoDup (flat_map f l)).
  { apply IH; intros; [apply Hf | apply Hkey]; try right; assumption. }
  assert (Hdisj : forall x, In x (f a) -> ~ In x (flat_map f l)).
  { intros x Hx Hin. apply in_flat_map in Hin as (a' & Ha' & Hx').
    assert (key x = a) by (apply Hkey; [now left | assumption]).
    assert (key x = a') by (apply Hkey; [now right | assumption]).
    congruence. }
  assert (Hfa : NoDup (f a)) by (apply Hf; now left).
  clear - Hrest Hdisj Hfa.
  induction Hfa as [| x xs Hx _ IHx]; cbn [app]; [exact Hrest |].
  constructor.
  - rewrite in_app_iff. intros [H | H]; [contradiction |].
    apply (Hdisj x); [now left | exact H].
  - apply IHx. intros z Hz. apply Hdisj. now right.
Qed.

(** X18. No two elements of the week table share an [id]: whenever the hours
    are distinct and hold no dash, and the days are distinct and none is
    called "row", the ids of the rows and of their cells are pairwise
    distinct; the hours and days of the script are such, so each of its 216
    ids names one element. *)
Theorem week_table_ids_distinct :
  (forall hs ds,
      NoDup hs -> Forall (fun h => has_dash h = false) hs ->
      NoDup ds -> ~ In "row"%string ds ->
      NoDup (ids (rows_over hs ds))) /\
  NoDup (ids output) /\
  List.length (ids output) = 216%nat.
Proof.
  assert (G : forall hs ds,
             NoDup hs -> Forall (fun h => has_dash h = false) hs ->
             NoDup ds -> ~ In "row"%string ds ->
             NoDup (ids (rows_over hs ds))).
  { intros hs ds Hhs Hdash Hds Hrow. rewrite ids_rows_over.
    rewrite Forall_forall in Hdash.
    apply (NoDup_flat_map_key (ids_of_hour ds) before_dash); [exact Hhs | |].
    - intros h Hh. apply ids_of_hour_NoDup; auto.
    - intros h x Hh Hx. apply (ids_of_hour_key ds); auto. }
  split; [exact G |]. split; [| reflexivity].
  apply G.
  - apply (NoDup_count_occ' string_dec). intros x Hx.
    repeat (destruct Hx as [<- | Hx]; [reflexivity |]). destruct Hx.
  - repeat constructor.
  - apply (NoDup_count_occ' string_dec). intros x Hx.
    repeat (destruct Hx as [<- | Hx]; [reflexivity |]). destruct Hx.
  - intros Hin. repeat (destruct Hin as [E | Hin]; [discriminate E |]). destruct Hin.
Qed.

End WeekTableFacts.

(** * The table-driven script: today, and the icon-driven script *)

Module TableMore.
Import JsDate DateFacts LoopFacts MonthFacts GridFacts CalendarMore TableNav TableFacts.

(** Among consecutive numbers, the cells chosen by number are the cell of
    that number, if it is among them. *)
Lemma filter_by_number {T} (f : Z -> T) (sel : T -> bool) (d : Z) (b : bool) :
  (forall i, sel (f i) = (i =? d) && b) ->
  forall n a,
    filter sel (map f (Zup a n)) =
    if b && (a <=? d) && (d <? a + Z.of_nat n) then [f d] else [].
Proof.
  intros Hsel. induction n as [| n IH]; intros a.
  - cbn [Zup map filter]. rewrite Z.add_0_r.
    destruct b; cbn [andb]; [| reflexivity].
    destruct (Z.leb_spec a d); destruct (Z.ltb_spec d a); try reflexivity; lia.
  - cbn [Zup map filter]. rewrite Hsel, IH, Nat2Z.inj_succ.
    destruct b; cbn [andb]; [| now rewrite andb_false_r].
    rewrite andb_true_r.
    destruct (Z.eqb_spec a d) as [-> | Hne].
    + destruct (Z.leb_spec (d + 1) d); [lia |]. cbn [andb].
      destruct (Z.leb_spec d d); [| lia].
      destruct (Z.ltb_spec d (d + Z.succ (Z.of_nat n))); [reflexivity | lia].
    + destruct (Z.leb_spec (a + 1) d); destruct (Z.leb_spec a d); try lia;
        cbn [andb]; try reflexivity.
      destruct (Z.ltb_spec d (a + 1 + Z.of_nat n));
        destruct (Z.ltb_spec d (a + Z.succ (Z.of_nat n))); try reflexivity; lia.
Qed.

Lemma selected_date_td today mo ye d i :
  getDate today = Int d ->
  selected (date_td today mo ye i) =
  (i =? d) && (strict_eq ye (getFullYear today) && strict_eq mo (getMonth today)).
Proof.
  intros Hd. unfold selected, date_td. cbn [td_className]. rewrite Hd. cbn [strict_eq].
  rewrite <- andb_assoc.
  destruct ((i =? d) && (strict_eq ye (getFullYear today) && strict_eq mo (getMonth today)));
    reflexivity.
Qed.

Lemma selected_date_td_NaN today mo ye i :
  getDate today = NaN -> selected (date_td today mo ye i) = false.
Proof. intros Hd. unfold selected, date_td. cbn [td_className]. now rewrite Hd. Qed.

Lemma filter_selected_blanks k : filter selected (repeat blank_td k) = [].
Proof. induction k; [reflexivity | exact IHk]. Qed.

(** X19. In the table, the cell marked as today is the cell of today's date,
    and it is marked exactly when the table shows today's month and year:
    otherwise no cell is marked, and never more than one is. *)
Theorem showCalendar_marks_today (daysInMonth : num -> num -> num)
    (today : JsDate.t) (month year : num) (k n : Z) :
  getDay (mk2 year month) = Int k -> 0 <= k <= 6 ->
  daysInMonth month year = Int n -> 0 <= n -> k + n <= 42 ->
  let tds := List.concat (snd (showCalendar daysInMonth today month year)) in
  (List.length (filter selected tds) <= 1)%nat /\
  (filter selected tds <> [] ->
   year = getFullYear today /\ month = getMonth today) /\
  (forall t, today = Some t ->
     year = getFullYear today -> month = getMonth today ->
     DateFromDay t <= n ->
     filter selected tds = [mk_td "date-picker selected" (Some (Int (DateFromDay t)))]).
Proof.
  intros Hfd Hk Hdays Hn Hfit tds.
  assert (E : tds = repeat blank_td (Z.to_nat k)
                    ++ map (date_td today month year) (Zup 1 (Z.to_nat n)))
    by (apply showCalendar_content; assumption).
  rewrite E, filter_app, filter_selected_blanks. cbn [app]. clear E tds.
  destruct today as [t |].
  - rewrite (filter_by_number _ selected (DateFromDay t)
               (strict_eq year (getFullYear (Some t))
                && strict_eq month (getMonth (Some t))))
      by (intros i; now apply selected_date_td).
    pose proof (DateFromDay_range t) as R.
    destruct (strict_eq year (getFullYear (Some t))) eqn:EY;
      destruct (strict_eq month (getMonth (Some t))) eqn:EM; cbn [andb].
    + apply strict_eq_true in EY, EM.
      destruct (Z.leb_spec 1 (DateFromDay t)); [| lia]. cbn [andb].
      destruct (Z.ltb_spec (DateFromDay t) (1 + Z.of_nat (Z.to_nat n))).
      * split; [cbn; lia |]. split; [auto |].
        intros t' Ht' _ _ _. injection Ht' as <-.
        unfold date_td. cbn [getDate getter strict_eq].
        rewrite Z.eqb_refl, <- EY, <- EM. cbn [andb].
        destruct year, month; try discriminate. cbn [strict_eq].
        now rewrite !Z.eqb_refl.
      * split; [cbn; lia |]. split; [congruence |].
        intros t' Ht' _ _ Hle. injection Ht' as <-. lia.
    + split; [cbn; lia |]. split; [congruence |].
      intros t' _ _ HM _. rewrite HM in EM.
      cbn [getMonth getter strict_eq] in EM. now rewrite Z.eqb_refl in EM.
    + split; [cbn; lia |]. split; [congruence |].
      intros t' _ HY _ _. rewrite HY in EY.
      cbn [getFullYear getter strict_eq] in EY. now rewrite Z.eqb_refl in EY.
    + split; [cbn; lia |]. split; [congruence |].
      intros t' _ HY _ _. rewrite HY in EY.
      cbn [getFullYear getter strict_eq] in EY. now rewrite Z.eqb_refl in EY.
  - assert (F : filter selected (map (date_td None month year) (Zup 1 (Z.to_nat n))) = []).
    { induction (Zup 1 (Z.to_nat n)) as [| a l IH]; [reflexivity |].
      cbn [map filter]. now rewrite selected_date_td_NaN. }
    rewrite F. split; [cbn; lia |]. split; [congruence |]. intros t Ht. discriminate.
Qed.

Lemma firstn_app_exact {A} (l1 l2 : list A) n :
  List.length l1 = n -> firstn n (l1 ++ l2) = l1.
Proof.
  intros <-. rewrite firstn_app, Nat.sub_diag, firstn_O, app_nil_r.
  apply firstn_all.
Qed.

Lemma skipn_app_exact {A} (l1 l2 : list A) n :
  List.length l1 = n -> skipn n (l1 ++ l2) = l2.
Proof.
  intros <-. rewrite skipn_app, Nat.sub_diag, skipn_O, skipn_all. reflexivity.
Qed.

(** X20. Both scripts put the days of the month in the same places: when
    [daysInMonth] answers the last date [Date] gives, the cell at a given
    place of the table carries a date exactly when the cell at that place of
    the icon-driven list is a day of the month, and then both carry the same
    number. *)
Theorem scripts_agree_on_month_days (daysInMonth : num -> num -> num)
    (today : JsDate.t) (now : Z) (p : page) (y m : Z) :
  representable_year y -> 0 <= m <= 11 ->
  currYear p = Int y -> currMonth p = Int m ->
  daysInMonth (Int m) (Int y) = lastDateOfMonth p ->
  exists fw L : nat,
    firstWeekday p = Int (Z.of_nat fw) /\ lastDateOfMonth p = Int (Z.of_nat L) /\
    firstn fw (map cell_number (showCalendar_cells daysInMonth today (Int m) (Int y)))
      = repeat None fw /\
    skipn fw (map cell_number (showCalendar_cells daysInMonth today (Int m) (Int y)))
      = map (fun d => Some (Int d)) (Zup 1 L) /\
    firstn L (skipn fw (map cell_number (calendar_cells now p)))
      = map (fun d => Some (Int d)) (Zup 1 L) /\
    Forall (fun c => cell_isCurrentMonth c = false)
      (firstn fw (calendar_cells now p) ++ skipn (fw + L) (calendar_cells now p)).
Proof.
  intros Hy Hm HY HM Hdim.
  pose proof (WeekDay_range (MakeDay (full_year y) m 1)) as Hfw.
  pose proof (standard_month_days_bounds (full_year y) m) as HL.
  rewrite (lastDateOfMonth_valid p y m) in Hdim by assumption.
  exists (Z.to_nat (WeekDay (MakeDay (full_year y) m 1))),
    (Z.to_nat (standard_month_days (full_year y) m)).
  rewrite !Z2Nat.id by lia.
  split; [now apply firstWeekday_valid |].
  split; [now apply lastDateOfMonth_valid |].
  assert (Hfd : getDay (mk2 (Int y) (Int m)) = Int (WeekDay (MakeDay (full_year y) m 1))).
  { unfold mk2. now rewrite mk_valid by (trivial; lia). }
  assert (S : map cell_number (showCalendar_cells daysInMonth today (Int m) (Int y)) =
              repeat None (Z.to_nat (WeekDay (MakeDay (full_year y) m 1)))
              ++ map (fun d => Some (Int d))
                   (Zup 1 (Z.to_nat (standard_month_days (full_year y) m)))).
  { unfold showCalendar_cells.
    rewrite (showCalendar_content daysInMonth today (Int m) (Int y) _ _ Hdim Hfd)
      by lia.
    rewrite !map_app, !map_map, !map_repeat. reflexivity. }
  destruct (calendar_month_runs now p y m Hy Hm HY HM _ _ _ eq_refl eq_refl eq_refl)
    as [E _].
  cbv zeta in E. cbn [cells grid_of] in E. unfold calendar_cells. rewrite E, S. clear E S.
  set (fw := Z.to_nat (WeekDay (MakeDay (full_year y) m 1))).
  set (L := Z.to_nat (standard_month_days (full_year y) m)).
  rewrite !map_app.
  set (CA := map cell_of_li (map inactive_li (map Int (Zup _ fw)))).
  set (CB := map cell_of_li (map (month_cell now p) (Zup 1 L))).
  set (CC := map cell_of_li (map inactive_li (map Int (Zup 1 _)))).
  assert (HA : List.length CA = fw)
    by (unfold CA; now rewrite !length_map, Zup_length).
  assert (HB : List.length CB = L)
    by (unfold CB; now rewrite !length_map, Zup_length).
  assert (NB : map cell_number CB = map (fun d => Some (Int d)) (Zup 1 L))
    by (unfold CB; now rewrite !map_map).
  split; [| split; [| split]].
  - apply firstn_app_exact, repeat_length.
  - apply skipn_app_exact, repeat_length.
  - rewrite skipn_app_exact by (now rewrite length_map).
    rewrite firstn_app_exact by (now rewrite length_map). exact NB.
  - rewrite firstn_app_exact by exact HA.
    rewrite app_assoc, skipn_app_exact by (rewrite length_app; lia).
    apply Forall_app. split; unfold CA, CC; rewrite map_map;
      apply Forall_map_intro; reflexivity.
Qed.

End TableMore.

(** * The further properties at work on concrete pages *)

Module MoreWitnesses.
Import JsDate TableNav Collapsible WeekTable.

Lemma representable_between a : -271820 <= a <= 275759 -> representable_year a.
Proof. intros H. exact H. Defined.

Lemma day_under_its_weekday_witness :
  representable_year 2024 /\ 0 <= 1 <= 11 /\
  currYear february_2024 = Int 2024 /\ currMonth february_2024 = Int 1 /\
  1 <= 29 /\ le (Int 29) (lastDateOfMonth february_2024) = true /\
  exists i : nat,
    nth_error (cells (grid_of (calendar 19780 february_2024))) i
    = Some (month_cell 19780 february_2024 29) /\
    getDay (mk (Int 2024) (Int 1) (Int 29)) = Int (Z.of_nat i mod 7).
Proof.
  split; [exact representable_2024 |]. split; [lia |].
  split; [reflexivity |]. split; [reflexivity |]. split; [lia |].
  split; [reflexivity |].
  apply (CalendarMore.day_under_its_weekday 19780 february_2024 2024 1 29);
    [exact representable_2024 | lia | reflexivity | reflexivity | lia | reflexivity].
Defined.

Lemma three_runs_of_a_month_witness :
  representable_year 2024 /\ 0 <= 1 <= 11 /\
  currYear february_2024 = Int 2024 /\ currMonth february_2024 = Int 1 /\
  let cs := cells (grid_of (calendar 19780 february_2024)) in
  exists ld : Z,
    lastWeekday february_2024 = Int ld /\ 0 <= ld <= 6 /\
    cs = leading_cells cs ++ active_cells cs ++ trailing_cells cs /\
    Forall (fun c => isCurrentMonth c = false) (leading_cells cs) /\
    Forall (fun c => isCurrentMonth c = true) (active_cells cs) /\
    Forall (fun c => isCurrentMonth c = false) (trailing_cells cs) /\
    map dayNumber (trailing_cells cs) = map Int (Zup 1 (Z.to_nat (6 - ld))) /\
    (List.length (leading_cells cs) <= 6)%nat /\
    (List.length (trailing_cells cs) <= 6)%nat.
Proof.
  split; [exact representable_2024 |]. split; [lia |].
  split; [reflexivity |]. split; [reflexivity |].
  apply (CalendarMore.three_runs_of_a_month 19780 february_2024 2024 1);
    [exact representable_2024 | lia | reflexivity | reflexivity].
Defined.

Lemma today_is_marked_witness :
  representable_year (YearFromDay 19780) /\ ~ 0 <= YearFromDay 19780 <= 99 /\
  filter isToday
    (cells (computeGrid_on blank (YearFromDay 19780) (MonthFromDay 19780) 19780)) =
  [mk_li "active" (Int (DateFromDay 19780))].
Proof.
  assert (H1 : representable_year (YearFromDay 19780)) by exact representable_2024.
  assert (H2 : ~ 0 <= YearFromDay 19780 <= 99)
    by (change (YearFromDay 19780) with 2024; lia).
  split; [exact H1 |]. split; [exact H2 |].
  exact (CalendarMore.today_is_marked blank 19780 H1 H2).
Defined.

Lemma click_steps_one_month_witness :
  0 <= 11 <= 11 /\ ~ 0 <= 2024 <= 99 /\
  representable_year (2024 - 1) /\ representable_year (2024 + 1) /\
  exists y' m',
    currYear (icon_click "next" 19780 (mk_page None (Int 2024) (Int 11) "" [])) = Int y' /\
    currMonth (icon_click "next" 19780 (mk_page None (Int 2024) (Int 11) "" [])) = Int m' /\
    0 <= m' <= 11 /\
    12 * y' + m' = 12 * 2024 + 11 + (if String.eqb "next" "prev" then -1 else 1) /\
    forall q, grid_of (icon_click "next" 19780 (mk_page None (Int 2024) (Int 11) "" []))
              = computeGrid_on q y' m' 19780.
Proof.
  assert (H1 : representable_year (2024 - 1)) by (apply representable_between; lia).
  assert (H2 : representable_year (2024 + 1)) by (apply representable_between; lia).
  split; [lia |]. split; [lia |]. split; [exact H1 |]. split; [exact H2 |].
  apply (IconNav.click_steps_one_month "next" 19780
           (mk_page None (Int 2024) (Int 11) "" []) 2024 11);
    [lia | lia | exact H1 | exact H2 | reflexivity | reflexivity].
Defined.

Lemma next_then_prev_returns_witness :
  0 <= 11 <= 11 /\ ~ -1 <= 2024 <= 100 /\
  representable_year (2024 - 2) /\ representable_year (2024 + 2) /\
  let p := mk_page None (Int 2024) (Int 11) "" [] in
  let back := icon_click "prev" 19781 (icon_click "next" 19780 p) in
  let forth := icon_click "next" 19781 (icon_click "prev" 19780 p) in
  currYear back = Int 2024 /\ currMonth back = Int 11 /\
  currYear forth = Int 2024 /\ currMonth forth = Int 11 /\
  grid_of back = computeGrid_on p 2024 11 19781 /\
  grid_of forth = computeGrid_on p 2024 11 19781.
Proof.
  assert (H1 : representable_year (2024 - 2)) by (apply representable_between; lia).
  assert (H2 : representable_year (2024 + 2)) by (apply representable_between; lia).
  split; [lia |]. split; [lia |]. split; [exact H1 |]. split; [exact H2 |].
  apply (IconNav.next_then_prev_returns 19780 19781
           (mk_page None (Int 2024) (Int 11) "" []) 2024 11);
    [lia | lia | exact H1 | exact H2 | reflexivity | reflexivity].
Defined.

Lemma two_digit_year_jumps_to_1900s_witness :
  0 <= 99 <= 99 /\
  currYear (mk_page None (Int 99) (Int 0) "" []) = Int 99 /\
  currMonth (mk_page None (Int 99) (Int 0) "" []) = Int 0 /\
  currYear (icon_click "prev" 19780 (mk_page None (Int 99) (Int 0) "" [])) = Int (1899 + 99) /\
  currMonth (icon_click "prev" 19780 (mk_page None (Int 99) (Int 0) "" [])) = Int 11.
Proof.
  split; [lia |]. split; [reflexivity |]. split; [reflexivity |].
  apply (proj1 (IconNav.two_digit_year_jumps_to_1900s 19780
                  (mk_page None (Int 99) (Int 0) "" []) 99 ltac:(lia) eq_refl)).
  reflexivity.
Defined.

Lemma click_out_of_range_loses_view_witness :
  let p := mk_page None (Int 275760) (Int 11) "" [] in
  currYear p = Int 275760 /\ currMonth p = Int 11 /\
  (stepped "next" 11 < 0 \/ 11 < stepped "next" 11) /\
  mk (Int 275760) (Int (stepped "next" 11)) (Int (DateFromDay 19780)) = None /\
  currYear (icon_click "next" 19780 p) = NaN /\
  currMonth (icon_click "next" 19780 p) = NaN /\
  cells (grid_of (icon_click "next" 19780 p)) = [] /\
  label (grid_of (icon_click "next" 19780 p)) = "undefined NaN"%string.
Proof.
  assert (H : stepped "next" 11 < 0 \/ 11 < stepped "next" 11)
    by (right; reflexivity).
  split; [reflexivity |]. split; [reflexivity |]. split; [exact H |].
  split; [reflexivity |].
  exact (IconNav.click_out_of_range_loses_view "next" 19780
           (mk_page None (Int 275760) (Int 11) "" []) 275760 11
           eq_refl eq_refl H eq_refl).
Defined.

Lemma NaN_month_is_kept_witness :
  let p := mk_page None (Int 2024) NaN "" [] in
  currMonth p = NaN /\
  currMonth (icon_click "prev" 19780 p) = NaN /\
  currYear (icon_click "prev" 19780 p) = currYear p /\
  cells (grid_of (icon_click "prev" 19780 p)) = [] /\
  label (grid_of (icon_click "prev" 19780 p)) =
    ("undefined " ++ to_string (currYear p))%string.
Proof.
  split; [reflexivity |].
  exact (IconNav.NaN_month_is_kept "prev" 19780
           (mk_page None (Int 2024) NaN "" []) eq_refl).
Defined.

Lemma showCalendar_blanks_then_dates_witness :
  let dim := fun _ _ : num => Int 29 in
  getDay (mk2 (Int 2024) (Int 1)) = Int 4 /\ 0 <= 4 <= 6 /\
  dim (Int 1) (Int 2024) = Int 29 /\ 0 <= 29 /\ 4 + 29 <= 42 /\
  let tds := List.concat (snd (showCalendar dim None (Int 1) (Int 2024))) in
  tds = repeat blank_td (Z.to_nat 4)
        ++ map (date_td None (Int 1) (Int 2024)) (Zup 1 (Z.to_nat 29)) /\
  map data_date tds =
    repeat None (Z.to_nat 4) ++ map (fun d => Some (Int d)) (Zup 1 (Z.to_nat 29)) /\
  Z.of_nat (List.length tds) = 4 + 29.
Proof.
  split; [reflexivity |]. split; [lia |]. split; [reflexivity |].
  split; [lia |]. split; [lia |].
  apply (TableFacts.showCalendar_blanks_then_dates (fun _ _ : num => Int 29) None
           (Int 1) (Int 2024) 4 29);
    [reflexivity | lia | reflexivity | lia | lia].
Defined.

Lemma next_and_previous_step_one_month_witness :
  let dim := fun _ _ : num => Int 31 in
  0 <= 11 <= 11 /\
  exists yn mn yp mp,
    fst (next dim None (mk_view (Int 11) (Int 2024))) = mk_view (Int mn) (Int yn) /\
    fst (previous dim None (mk_view (Int 11) (Int 2024))) = mk_view (Int mp) (Int yp) /\
    0 <= mn <= 11 /\ month_index yn mn = month_index 2024 11 + 1 /\
    0 <= mp <= 11 /\ month_index yp mp = month_index 2024 11 - 1 /\
    snd (next dim None (mk_view (Int 11) (Int 2024))) =
      showCalendar dim None (Int mn) (Int yn) /\
    snd (previous dim None (mk_view (Int 11) (Int 2024))) =
      showCalendar dim None (Int mp) (Int yp).
Proof.
  split; [lia |].
  apply (TableNavFacts.next_and_previous_step_one_month (fun _ _ : num => Int 31)
           None 2024 11). lia.
Defined.

Lemma next_previous_round_trip_witness :
  0 <= 11 <= 11 /\
  previous_view (next_view (mk_view (Int 11) (Int 2024))) = mk_view (Int 11) (Int 2024) /\
  next_view (previous_view (mk_view (Int 11) (Int 2024))) = mk_view (Int 11) (Int 2024).
Proof.
  split; [lia |]. apply (TableNavFacts.next_previous_round_trip 2024 11). lia.
Defined.

Lemma next_does_not_carry_witness :
  12 <= 12 /\
  exists m', next_view (mk_view (Int 12) (Int 2024)) = mk_view (Int m') (Int 2024) /\
             0 <= m' <= 11 /\ m' = (12 + 1) mod 12.
Proof.
  split; [lia |].
  apply (proj1 (TableNavFacts.next_does_not_carry 2024 12)). lia.
Defined.

Lemma icon_and_table_navigation_agree_witness :
  let p := mk_page None (Int 2024) (Int 11) "" [] in
  0 <= 11 <= 11 /\ ~ 0 <= 2024 <= 99 /\
  representable_year (2024 - 1) /\ representable_year (2024 + 1) /\
  mk_view (currMonth (icon_click "next" 19780 p)) (currYear (icon_click "next" 19780 p))
  = next_view (mk_view (Int 11) (Int 2024)) /\
  mk_view (currMonth (icon_click "prev" 19780 p)) (currYear (icon_click "prev" 19780 p))
  = previous_view (mk_view (Int 11) (Int 2024)).
Proof.
  assert (H1 : representable_year (2024 - 1)) by (apply representable_between; lia).
  assert (H2 : representable_year (2024 + 1)) by (apply representable_between; lia).
  split; [lia |]. split; [lia |]. split; [exact H1 |]. split; [exact H2 |].
  apply (TableNavFacts.icon_and_table_navigation_agree 19780
           (mk_page None (Int 2024) (Int 11) "" []) 2024 11);
    [lia | lia | exact H1 | exact H2 | reflexivity | reflexivity].
Defined.

Lemma click_flips_class_and_section_witness :
  let b := mk_section false "" 120 in
  active b = expanded b /\ expanded b = false /\
  active (click b) = expanded (click b) /\
  maxHeight (click b) = "120px"%string.
Proof.
  split; [reflexivity |]. split; [reflexivity |].
  destruct (CollapsibleFacts.click_flips_class_and_section (mk_section false "" 120))
    as (_ & _ & S & _ & M).
  split; [exact (S eq_refl) | exact (M eq_refl)].
Defined.

Lemma click_twice_restores_witness :
  expanded (mk_section false "" 120) = false /\
  click (click (mk_section false "" 120)) = mk_section false "" 120.
Proof.
  split; [reflexivity |].
  exact (proj1 (CollapsibleFacts.click_twice_restores (mk_section false "" 120)) eq_refl).
Defined.

Lemma onload_expands_all_witness :
  let buttons := [mk_section false "" 120; mk_section false "" 0] in
  Forall (fun b => active b = false /\ expanded b = false) buttons /\
  List.length (onload buttons) = List.length buttons /\
  Forall (fun b => active b = true /\ expanded b = true) (onload buttons) /\
  map maxHeight (onload buttons) =
    map (fun b => (to_string (Int (scrollHeight b)) ++ "px")%string) buttons.
Proof.
  assert (H : Forall (fun b => active b = false /\ expanded b = false)
                [mk_section false "" 120; mk_section false "" 0])
    by (repeat constructor).
  split; [exact H |].
  exact (CollapsibleFacts.onload_expands_all _ H).
Defined.

Lemma showCalendar_marks_today_witness :
  let dim := fun _ _ : num => Int 29 in
  getDay (mk2 (Int 2024) (Int 1)) = Int 4 /\ 0 <= 4 <= 6 /\
  dim (Int 1) (Int 2024) = Int 29 /\ 0 <= 29 /\ 4 + 29 <= 42 /\
  Int 2024 = getFullYear (Some 19780) /\ Int 1 = getMonth (Some 19780) /\
  DateFromDay 19780 <= 29 /\
  filter selected (List.concat (snd (showCalendar dim (Some 19780) (Int 1) (Int 2024))))
  = [mk_td "date-picker selected" (Some (Int (DateFromDay 19780)))].
Proof.
  assert (H : DateFromDay 19780 <= 29) by (vm_compute; discriminate).
  split; [reflexivity |]. split; [lia |]. split; [reflexivity |].
  split; [lia |]. split; [lia |]. split; [reflexivity |]. split; [reflexivity |].
  split; [exact H |].
  apply (proj2 (proj2 (TableMore.showCalendar_marks_today (fun _ _ : num => Int 29)
                         (Some 19780) (Int 1) (Int 2024) 4 29
                         eq_refl ltac:(lia) eq_refl ltac:(lia) ltac:(lia)))
           19780 eq_refl eq_refl eq_refl H).
Defined.

Lemma scripts_agree_on_month_days_witness :
  let dim := fun _ _ : num => Int 29 in
  representable_year 2024 /\ 0 <= 1 <= 11 /\
  currYear february_2024 = Int 2024 /\ currMonth february_2024 = Int 1 /\
  dim (Int 1) (Int 2024) = lastDateOfMonth february_2024 /\
  exists fw L : nat,
    firstWeekday february_2024 = Int (Z.of_nat fw) /\
    lastDateOfMonth february_2024 = Int (Z.of_nat L) /\
    firstn fw (map cell_number (showCalendar_cells dim None (Int 1) (Int 2024)))
      = repeat None fw /\
    skipn fw (map cell_number (showCalendar_cells dim None (Int 1) (Int 2024)))
      = map (fun d => Some (Int d)) (Zup 1 L) /\
    firstn L (skipn fw (map cell_number (calendar_cells 19780 february_2024)))
      = map (fun d => Some (Int d)) (Zup 1 L) /\
    Forall (fun c => cell_isCurrentMonth c = false)
      (firstn fw (calendar_cells 19780 february_2024)
       ++ skipn (fw + L) (calendar_cells 19780 february_2024)).
Proof.
  split; [exact representable_2024 |]. split; [lia |].
  split; [reflexivity |]. split; [reflexivity |]. split; [reflexivity |].
  apply (TableMore.scripts_agree_on_month_days (fun _ _ : num => Int 29) None
           19780 february_2024 2024 1);
    [exact representable_2024 | lia | reflexivity | reflexivity | reflexivity].
Defined.

Lemma week_table_ids_distinct_witness :
  NoDup hours /\ Forall (fun h => has_dash h = false) hours /\
  NoDup days /\ ~ In "row"%string days /\
  NoDup (ids (rows_over hours days)).
Proof.
  assert (H1 : NoDup hours).
  { apply (NoDup_count_occ' string_dec). intros x Hx.
    repeat (destruct Hx as [<- | Hx]; [reflexivity |]). destruct Hx. }
  assert (H2 : Forall (fun h => has_dash h = false) hours) by (repeat constructor).
  assert (H3 : NoDup days).
  { apply (NoDup_count_occ' string_dec). intros x Hx.
    repeat (destruct Hx as [<- | Hx]; [reflexivity |]). destruct Hx. }
  assert (H4 : ~ In "row"%string days).
  { intros Hin. repeat (destruct Hin as [E | Hin]; [discriminate E |]). destruct Hin. }
  split; [exact H1 |]. split; [exact H2 |]. split; [exact H3 |]. split; [exact H4 |].
  exact (proj1 WeekTableFacts.week_table_ids_distinct hours days H1 H2 H3 H4).
Defined.

End MoreWitnesses.
